(** * CurvedScrollBar: the rail geometry and the indicator mapping

    A shallow embedding of [components/CurvedScrollBar.tsx]: the curved rail
    computed by [calculateRailPath], the scroll normalisation of
    [handleScroll] and the dash pattern of [animatedMaskProps].

    The component computes on JavaScript numbers.  The code is embedded once,
    over an interface [JSNumber] of the operations it uses, and the interface
    has two instances: the real numbers, over which the arithmetic properties
    of the rail are proved, and IEEE 754 binary64 floats, over which the very
    same definitions run.

    Around the three functions stand the component itself, its state, its
    event handlers and its render ([Component]), and the application of
    [App.tsx] with its two buttons ([App]). *)

From Stdlib Require Import ZArith List String Bool Lia.
From Stdlib Require Import Floats.
From Stdlib Require Import Reals Lra Psatz.
Import ListNotations.

Set Implicit Arguments.

(* ================================================================== *)
(** ** JavaScript numbers *)

(** The operations of the language that the component applies to numbers:
    literals, [Math.PI], [+ - * /], unary minus, [Math.sqrt], [Math.max],
    [Math.min], and the comparisons [===], [>] and [<=]. *)
Class JSNumber (num : Type) : Type := {
  of_Z : Z -> num;
  Math_PI : num;
  num_add : num -> num -> num;
  num_sub : num -> num -> num;
  num_mul : num -> num -> num;
  num_div : num -> num -> num;
  num_neg : num -> num;
  Math_sqrt : num -> num;
  Math_max : num -> num -> num;
  Math_min : num -> num -> num;
  strict_eq : num -> num -> bool;
  num_gt : num -> num -> bool;
  num_le : num -> num -> bool
}.

Declare Scope js_scope.
Delimit Scope js_scope with js.
Notation "a + b" := (num_add a b) : js_scope.
Notation "a - b" := (num_sub a b) : js_scope.
Notation "a * b" := (num_mul a b) : js_scope.
Notation "a / b" := (num_div a b) : js_scope.
Notation "- a" := (num_neg a) : js_scope.
Notation "a === b" := (strict_eq a b) (at level 70, no associativity) : js_scope.
Notation "a >? b" := (num_gt a b) (at level 70, no associativity) : js_scope.
Notation "a <=? b" := (num_le a b) (at level 70, no associativity) : js_scope.

(** A decimal literal [m / 10^places], such as [1.1] and [0.3]. Both parts
    are small integers, so the correctly rounded quotient is the double the
    literal denotes. *)
Definition dec {num} `{JSNumber num} (m : Z) (places : nat) : num :=
  (of_Z m / of_Z (10 ^ Z.of_nat places))%js.

(** *** Real numbers

    Exact arithmetic: no rounding, no overflow, no infinity and no NaN. What
    is proved over this instance is a statement of real arithmetic; where
    the rounding of doubles changes it, the statement is made on the doubles
    below as well. *)

Definition Req_bool (a b : R) : bool := if Req_dec_T a b then true else false.
Definition Rgt_bool (a b : R) : bool := if Rlt_dec b a then true else false.
Definition Rle_bool (a b : R) : bool := if Rle_dec a b then true else false.

#[export] Instance R_JSNumber : JSNumber R := {|
  of_Z := IZR;
  Math_PI := PI;
  num_add := Rplus;
  num_sub := Rminus;
  num_mul := Rmult;
  num_div := Rdiv;
  num_neg := Ropp;
  Math_sqrt := sqrt;
  Math_max := Rmax;
  Math_min := Rmin;
  strict_eq := Req_bool;
  num_gt := Rgt_bool;
  num_le := Rle_bool
|}.

(** *** IEEE 754 binary64 *)

Definition float_of_Z (z : Z) : float :=
  match z with
  | Z0 => PrimFloat.zero
  | Zpos _ => PrimFloat.of_uint63 (Uint63.of_Z z)
  | Zneg p => PrimFloat.opp (PrimFloat.of_uint63 (Uint63.of_Z (Zpos p)))
  end.

(** [Math.max] and [Math.min]: NaN if an argument is NaN, and [-0] counts
    as smaller than [+0]. *)
Definition float_max (a b : float) : float :=
  if PrimFloat.is_nan a || PrimFloat.is_nan b then PrimFloat.nan
  else if PrimFloat.ltb a b then b
  else if PrimFloat.ltb b a then a
  else if PrimFloat.get_sign a then b else a.

Definition float_min (a b : float) : float :=
  if PrimFloat.is_nan a || PrimFloat.is_nan b then PrimFloat.nan
  else if PrimFloat.ltb a b then a
  else if PrimFloat.ltb b a then b
  else if PrimFloat.get_sign a then a else b.

#[export] Instance float_JSNumber : JSNumber float := {|
  of_Z := float_of_Z;
  Math_PI := 0x1.921fb54442d18p+1%float;
  num_add := PrimFloat.add;
  num_sub := PrimFloat.sub;
  num_mul := PrimFloat.mul;
  num_div := PrimFloat.div;
  num_neg := PrimFloat.opp;
  Math_sqrt := PrimFloat.sqrt;
  Math_max := float_max;
  Math_min := float_min;
  strict_eq := PrimFloat.eqb;
  num_gt := fun a b => PrimFloat.ltb b a;
  num_le := PrimFloat.leb
|}.

(* ================================================================== *)
(** ** Errors *)

(** Reading a property of [undefined] (an array index out of range) throws;
    [None] stands for the thrown [TypeError]. *)
Definition bind {A B : Type} (m : option A) (k : A -> option B) : option B :=
  match m with
  | Some a => k a
  | None => None
  end.

Notation "v <- m ;; k" := (bind m (fun v => k))
  (at level 61, m at next level, right associativity).

(* ================================================================== *)
(** ** The component *)

Section CurvedScrollBar.

Context {num : Type} `{JSNumber num}.

(** Template literals format a number with [Number.prototype.toString]. *)
Variable toString : num -> string.

Local Open Scope string_scope.
Local Open Scope js_scope.

Record Animation : Type := {
  damping : num;
  stiffness : num
}.

Record Config : Type := {
  cornerRadius : num;
  edgePadding : num;
  horizontalPosition : num;
  visibleLength : num;
  animation : Animation;
  inactiveOpacity : num
}.

Definition SCROLLBAR_CONFIG : Config := {|
  cornerRadius := of_Z 12;
  edgePadding := of_Z 10;
  horizontalPosition := dec 11 1;
  visibleLength := of_Z 70;
  animation := {| damping := of_Z 30; stiffness := of_Z 500 |};
  inactiveOpacity := dec 3 1
|}.

Record Dimensions : Type := {
  width : num;
  height : num
}.

Record Point : Type := {
  x : num;
  y : num
}.

Record RailGeometry : Type := {
  railPath : string;
  points : list Point;
  segmentLengths : list num;
  totalLength : num
}.

(** *** handleScroll *)

Record NativeScrollEvent : Type := {
  contentOffset : Point;
  contentSize : Dimensions;
  layoutMeasurement : Dimensions
}.

(** The value [withSpring] builds: the target the shared value is driven to,
    and the spring that drives it. *)
Record SpringAnimation : Type := {
  toValue : num;
  spring : Animation
}.

Definition withSpring (toValue : num) (userConfig : Animation) : SpringAnimation :=
  {| toValue := toValue; spring := userConfig |}.

(** The new value of [scrollProgress]. *)
Definition handleScroll (cfg : Config) (nativeEvent : NativeScrollEvent)
  : SpringAnimation :=
  let maxScrollDistance :=
    height (contentSize nativeEvent) - height (layoutMeasurement nativeEvent) in
  let progress :=
    if maxScrollDistance >? of_Z 0
    then y (contentOffset nativeEvent) / maxScrollDistance
    else of_Z 0 in
  withSpring (Math_max (of_Z 0) (Math_min (of_Z 1) progress))
    {| damping := damping (animation cfg);
       stiffness := stiffness (animation cfg) |}.

(** *** calculateRailPath *)

(** The body of the first loop at index [i]. *)
Definition segment_length (cfg : Config) (points : list Point) (i : nat)
  : option num :=
  if (i =? 1)%nat || (i =? 3)%nat then
    Some (Math_PI * cornerRadius cfg / of_Z 2 + of_Z 2)
  else
    q <- nth_error points (i + 1) ;;
    p <- nth_error points i ;;
    let dx := x q - x p in
    let dy := y q - y p in
    Some (Math_sqrt (dx * dx + dy * dy)).

(** [for (let i = 0; i < points.length - 1; i++)], with [n] iterations left;
    the loop state is [segmentLengths] and [totalLength]. *)
Fixpoint segment_loop (cfg : Config) (points : list Point) (n i : nat)
    (segmentLengths : list num) (totalLength : num)
  : option (list num * num) :=
  match n with
  | O => Some (segmentLengths, totalLength)
  | S n' =>
      length <- segment_length cfg points i ;;
      segment_loop cfg points n' (S i)
        (segmentLengths ++ [length]) (totalLength + length)
  end.

(** What the second loop appends to [railPath] at index [i]. *)
Definition path_command (cfg : Config) (points : list Point) (i : nat)
  : option string :=
  p <- nth_error points i ;;
  if (i =? 2)%nat then
    Some (" A " ++ toString (cornerRadius cfg) ++ " "
            ++ toString (cornerRadius cfg) ++ " 0 0 1 "
            ++ toString (x p) ++ " " ++ toString (y p) ++ " ")
  else if (i =? 4)%nat then
    Some (" A " ++ toString (cornerRadius cfg) ++ " "
            ++ toString (cornerRadius cfg) ++ " 0 0 1 "
            ++ toString (x p) ++ " " ++ toString (y p))
  else
    Some (" L " ++ toString (x p) ++ " " ++ toString (y p)).

(** [for (let i = 1; i < points.length; i++)], with [n] iterations left. *)
Fixpoint path_loop (cfg : Config) (points : list Point) (n i : nat)
    (railPath : string) : option string :=
  match n with
  | O => Some railPath
  | S n' =>
      command <- path_command cfg points i ;;
      path_loop cfg points n' (S i) (railPath ++ command)
  end.

Definition calculateRailPath (cfg : Config) (containerDimensions : Dimensions)
  : option RailGeometry :=
  if (width containerDimensions === of_Z 0)
     || (height containerDimensions === of_Z 0)
  then
    Some {| railPath := ""; points := []; segmentLengths := [];
            totalLength := of_Z 0 |}
  else
    let cornerRadius := cornerRadius cfg in
    let edgePadding := edgePadding cfg in
    let horizontalPosition := horizontalPosition cfg in
    let points := [
      {| x := width containerDimensions / horizontalPosition;
         y := edgePadding + cornerRadius |};
      {| x := width containerDimensions - edgePadding - cornerRadius;
         y := edgePadding + cornerRadius |};
      {| x := width containerDimensions - edgePadding;
         y := edgePadding + cornerRadius + cornerRadius |};
      {| x := width containerDimensions - edgePadding;
         y := height containerDimensions - edgePadding - cornerRadius
              - cornerRadius |};
      {| x := width containerDimensions - edgePadding - cornerRadius;
         y := height containerDimensions - edgePadding - cornerRadius |};
      {| x := width containerDimensions / horizontalPosition;
         y := height containerDimensions - edgePadding - cornerRadius |}
    ] in
    lengths <- segment_loop cfg points (List.length points - 1) 0 [] (of_Z 0) ;;
    p0 <- nth_error points 0 ;;
    railPath <- path_loop cfg points (List.length points - 1) 1
                  ("M " ++ toString (x p0) ++ " " ++ toString (y p0)) ;;
    Some {| railPath := railPath; points := points;
            segmentLengths := fst lengths; totalLength := snd lengths |}.

(** *** animatedMaskProps *)

Record MaskProps : Type := {
  opacity : num;
  strokeDasharray : string;
  strokeDashoffset : num
}.

(** The empty string is the one falsy string. *)
Definition falsy (s : string) : bool :=
  match s with
  | EmptyString => true
  | String _ _ => false
  end.

(** [progress] is [scrollProgress.value], the current value of the spring. *)
Definition animatedMaskProps (cfg : Config) (showRail : bool)
    (contentHeight scrollViewHeight : num) (railGeometry : RailGeometry)
    (progress : num) : MaskProps :=
  if negb showRail || (contentHeight <=? scrollViewHeight)
     || falsy (railPath railGeometry)
  then
    {| opacity := of_Z 0; strokeDasharray := "0 1000";
       strokeDashoffset := of_Z 0 |}
  else
    let totalLength := totalLength railGeometry in
    if totalLength === of_Z 0 then
      {| opacity := of_Z 0; strokeDasharray := "0 1000";
         strokeDashoffset := of_Z 0 |}
    else
      let visibleLength := visibleLength cfg in
      let currentPosition := progress * totalLength in
      let dashArray := toString visibleLength ++ " " ++ toString totalLength in
      let dashOffset := - currentPosition + visibleLength / of_Z 2 in
      {| strokeDasharray := dashArray;
         strokeDashoffset := dashOffset;
         opacity := of_Z 1 |}.

(** *** animatedContainerStyle *)

Definition animatedContainerStyle (cfg : Config)
    (contentHeight scrollViewHeight : num) : num :=
  let isScrollable := contentHeight >? scrollViewHeight in
  if isScrollable then of_Z 1 else inactiveOpacity cfg.

End CurvedScrollBar.

Arguments Animation : clear implicits.
Arguments Config : clear implicits.
Arguments Dimensions : clear implicits.
Arguments Point : clear implicits.
Arguments RailGeometry : clear implicits.
Arguments NativeScrollEvent : clear implicits.
Arguments SpringAnimation : clear implicits.
Arguments MaskProps : clear implicits.

(* ================================================================== *)
(** ** The component around the three functions *)

Module Component.

Section Component.

Context {num : Type} `{JSNumber num}.

Variable toString : num -> string.

(** What [children] holds. *)
Variable ReactNode : Type.

Local Open Scope string_scope.
Local Open Scope js_scope.

(** [CurvedScrollBarProps]: every prop but [children] may be left out. *)
Record CurvedScrollBarProps : Type := {
  children : ReactNode;
  backgroundColor : option string;
  scrollBarColor : option string;
  scrollBarWidth : option num;
  showRail : option bool
}.

(** A default of the destructuring pattern stands in for a prop that was
    left out. *)
Definition or_default {A : Type} (prop : option A) (default : A) : A :=
  match prop with
  | Some value => value
  | None => default
  end.

(** What was last assigned to a shared value: a number, or an animation
    that drives it. *)
Inductive SharedValue : Type :=
| Settled (value : num)
| Animated (animation : SpringAnimation num).

(** The state the hooks hold between renders. *)
Record State : Type := {
  containerDimensions : Dimensions num;
  contentHeight : num;
  scrollViewHeight : num;
  scrollProgress : SharedValue
}.

Definition initialState : State := {|
  containerDimensions := {| width := of_Z 0; height := of_Z 0 |};
  contentHeight := of_Z 0;
  scrollViewHeight := of_Z 0;
  scrollProgress := Settled (of_Z 0)
|}.

(** [onLayout] of the container. *)
Definition handleContainerLayout (layout : Dimensions num) (st : State)
  : State :=
  {| containerDimensions :=
       {| width := width layout; height := height layout |};
     contentHeight := contentHeight st;
     scrollViewHeight := scrollViewHeight st;
     scrollProgress := scrollProgress st |}.

(** [onScroll] of the scroll view: [handleScroll] assigns its spring to
    [scrollProgress.value]. *)
Definition onScroll (nativeEvent : NativeScrollEvent num) (st : State)
  : State :=
  {| containerDimensions := containerDimensions st;
     contentHeight := contentHeight st;
     scrollViewHeight := scrollViewHeight st;
     scrollProgress := Animated (handleScroll SCROLLBAR_CONFIG nativeEvent) |}.

(** [onContentSizeChange] of the scroll view. *)
Definition onContentSizeChange (width height : num) (st : State) : State :=
  {| containerDimensions := containerDimensions st;
     contentHeight := height;
     scrollViewHeight := scrollViewHeight st;
     scrollProgress := scrollProgress st |}.

(** [onLayout] of the scroll view. *)
Definition onLayout (layout : Dimensions num) (st : State) : State :=
  {| containerDimensions := containerDimensions st;
     contentHeight := contentHeight st;
     scrollViewHeight := height layout;
     scrollProgress := scrollProgress st |}.

(** The events the component listens to. *)
Inductive Event : Type :=
| ContainerLayout (layout : Dimensions num)
| Scroll (nativeEvent : NativeScrollEvent num)
| ContentSizeChange (width height : num)
| ScrollViewLayout (layout : Dimensions num).

Definition handle (st : State) (event : Event) : State :=
  match event with
  | ContainerLayout layout => handleContainerLayout layout st
  | Scroll nativeEvent => onScroll nativeEvent st
  | ContentSizeChange width height => onContentSizeChange width height st
  | ScrollViewLayout layout => onLayout layout st
  end.

Definition run (events : list Event) (st : State) : State :=
  fold_left handle events st.

(** The [AnimatedPath] element. *)
Record AnimatedPath : Type := {
  d : string;
  stroke : string;
  strokeWidth : num;
  strokeLinecap : string;
  fill : string;
  animatedProps : MaskProps num
}.

(** What a render hands to the views: the background of the outer view, the
    content of the scroll view, the size and the animated opacity of the
    overlay, the size of the drawing, and the path when there is one. *)
Record Rendered : Type := {
  background : string;
  scrollContent : ReactNode;
  overlaySize : Dimensions num;
  overlayOpacity : num;
  svgSize : Dimensions num;
  path : option AnimatedPath
}.

(** One render. [progress] is what [scrollProgress.value] reads at that
    moment: the spring moves it between renders. *)
Definition render (props : CurvedScrollBarProps) (st : State) (progress : num)
  : option Rendered :=
  let backgroundColor := or_default (backgroundColor props) "#000000" in
  let scrollBarColor := or_default (scrollBarColor props) "#FF0000" in
  let scrollBarWidth := or_default (scrollBarWidth props) (of_Z 8) in
  let showRail := or_default (showRail props) true in
  railGeometry <-
    calculateRailPath toString SCROLLBAR_CONFIG (containerDimensions st) ;;
  let maskProps :=
    animatedMaskProps toString SCROLLBAR_CONFIG showRail (contentHeight st)
      (scrollViewHeight st) railGeometry progress in
  let containerStyle :=
    animatedContainerStyle SCROLLBAR_CONFIG (contentHeight st)
      (scrollViewHeight st) in
  Some {|
    background := backgroundColor;
    scrollContent := children props;
    overlaySize :=
      {| width := width (containerDimensions st);
         height := height (containerDimensions st) |};
    overlayOpacity := containerStyle;
    svgSize :=
      {| width := width (containerDimensions st);
         height := height (containerDimensions st) |};
    path :=
      if showRail && negb (falsy (railPath railGeometry)) then
        Some {| d := railPath railGeometry;
                stroke := scrollBarColor;
                strokeWidth := scrollBarWidth;
                strokeLinecap := "round";
                fill := "none";
                animatedProps := maskProps |}
      else None
  |}.

End Component.

End Component.

Arguments Component.CurvedScrollBarProps : clear implicits.
Arguments Component.SharedValue : clear implicits.
Arguments Component.State : clear implicits.
Arguments Component.Event : clear implicits.
Arguments Component.AnimatedPath : clear implicits.
Arguments Component.Rendered : clear implicits.

(* ================================================================== *)
(** ** The application *)

Module App.

Section App.

Context {num : Type} `{JSNumber num}.

Variable ReactNode : Type.

(** The content the application puts in the scroll bar. *)
Variable content : ReactNode.

Local Open Scope string_scope.

Record State : Type := {
  scrollBarColor : string;
  showRail : bool
}.

Definition initialState : State := {|
  scrollBarColor := "#f6a53b";
  showRail := true
|}.

Definition changeColor (st : State) : State :=
  {| scrollBarColor :=
       (fun prev => if (prev =? "#f6a53b")%string then "#dd2f2f"
                    else "#f6a53b") (scrollBarColor st);
     showRail := showRail st |}.

Definition toggleRail (st : State) : State :=
  {| scrollBarColor := scrollBarColor st;
     showRail := (fun prev => negb prev) (showRail st) |}.

(** The two buttons. *)
Inductive Press : Type :=
| Color
| Rail.

Definition onPress (st : State) (button : Press) : State :=
  match button with
  | Color => changeColor st
  | Rail => toggleRail st
  end.

(** The captions under the two buttons. *)
Definition colorCaption (st : State) : string :=
  if (scrollBarColor st =? "#f6a53b")%string then "Orange" else "Red".

Definition railCaption (st : State) : string :=
  if showRail st then "Enabled" else "Disabled".

(** The props the application gives to [CurvedScrollBar]. *)
Definition props (st : State) : Component.CurvedScrollBarProps num ReactNode :=
  {| Component.children := content;
     Component.backgroundColor := Some "";
     Component.scrollBarColor := Some (scrollBarColor st);
     Component.scrollBarWidth := Some (of_Z 5);
     Component.showRail := Some (showRail st) |}.

End App.

(** How often a button occurs in a sequence of presses. *)
Definition same_button (a b : Press) : bool :=
  match a, b with
  | Color, Color => true
  | Rail, Rail => true
  | _, _ => false
  end.

Definition presses_of (button : Press) (presses : list Press) : nat :=
  List.length (filter (same_button button) presses).

End App.

(* ================================================================== *)
(** ** [calculateRailPath] as the closure it is *)

(** [calculateRailPath] takes no argument: it reads the variables of the
    component it is defined in, and it assigns to variables of its own. Here
    it is once more, statement by statement, over a machine that holds both:
    the captured variables, which an assignment could reach, and the locals
    of the call. *)
Module Closure.

Section Closure.

Context {num : Type} `{JSNumber num}.

Variable toString : num -> string.

Local Open Scope string_scope.
Local Open Scope js_scope.

(** The variables of the component that its closures capture. *)
Record Scope : Type := {
  SCROLLBAR_CONFIG : Config num;
  containerDimensions : Dimensions num;
  contentHeight : num;
  scrollViewHeight : num;
  scrollProgress : Component.SharedValue num;
  showRail : bool
}.

(** The variables that a call of [calculateRailPath] declares. *)
Record Locals : Type := {
  points : list (Point num);
  segmentLengths : list num;
  totalLength : num;
  railPath : string
}.

Record Machine : Type := {
  scope : Scope;
  locals : Locals
}.

(** A statement runs on a machine and leaves a value and a machine, or
    throws. *)
Definition Exec (A : Type) : Type := Machine -> option (A * Machine).

Definition ret {A : Type} (a : A) : Exec A := fun m => Some (a, m).

Definition exec_bind {A B : Type} (e : Exec A) (k : A -> Exec B) : Exec B :=
  fun m =>
    match e m with
    | Some (a, m') => k a m'
    | None => None
    end.

Notation "v <~ e ;; k" := (exec_bind e (fun v => k))
  (at level 61, e at next level, right associativity).

(** Reading a captured variable or a local. *)
Definition read_scope {A : Type} (variable : Scope -> A) : Exec A :=
  fun m => Some (variable (scope m), m).

Definition read_local {A : Type} (variable : Locals -> A) : Exec A :=
  fun m => Some (variable (locals m), m).

(** Assigning to a local. *)
Definition assign (update : Locals -> Locals) : Exec unit :=
  fun m => Some (tt, {| scope := scope m; locals := update (locals m) |}).

Definition set_points (value : list (Point num)) (l : Locals) : Locals :=
  {| points := value; segmentLengths := segmentLengths l;
     totalLength := totalLength l; railPath := railPath l |}.

Definition set_segmentLengths (value : list num) (l : Locals) : Locals :=
  {| points := points l; segmentLengths := value;
     totalLength := totalLength l; railPath := railPath l |}.

Definition set_totalLength (value : num) (l : Locals) : Locals :=
  {| points := points l; segmentLengths := segmentLengths l;
     totalLength := value; railPath := railPath l |}.

Definition set_railPath (value : string) (l : Locals) : Locals :=
  {| points := points l; segmentLengths := segmentLengths l;
     totalLength := totalLength l; railPath := value |}.

(** [array[i]] followed by a property access: out of range it throws. *)
Definition index (array : list (Point num)) (i : nat) : Exec (Point num) :=
  fun m =>
    match nth_error array i with
    | Some p => Some (p, m)
    | None => None
    end.

(** A [for] loop with [n] turns left, at index [i]. *)
Fixpoint for_loop (n i : nat) (body : nat -> Exec unit) : Exec unit :=
  match n with
  | O => ret tt
  | S n' => _ <~ body i ;; for_loop n' (S i) body
  end.

Definition calculateRailPath : Exec (RailGeometry num) :=
  containerDimensions <~ read_scope containerDimensions ;;
  if (width containerDimensions === of_Z 0)
     || (height containerDimensions === of_Z 0)
  then ret (Build_RailGeometry "" [] [] (of_Z 0))
  else
    config <~ read_scope SCROLLBAR_CONFIG ;;
    let cornerRadius := cornerRadius config in
    let edgePadding := edgePadding config in
    let horizontalPosition := horizontalPosition config in
    _ <~ assign (set_points [
      {| x := width containerDimensions / horizontalPosition;
         y := edgePadding + cornerRadius |};
      {| x := width containerDimensions - edgePadding - cornerRadius;
         y := edgePadding + cornerRadius |};
      {| x := width containerDimensions - edgePadding;
         y := edgePadding + cornerRadius + cornerRadius |};
      {| x := width containerDimensions - edgePadding;
         y := height containerDimensions - edgePadding - cornerRadius
              - cornerRadius |};
      {| x := width containerDimensions - edgePadding - cornerRadius;
         y := height containerDimensions - edgePadding - cornerRadius |};
      {| x := width containerDimensions / horizontalPosition;
         y := height containerDimensions - edgePadding - cornerRadius |}
    ]) ;;
    _ <~ assign (set_segmentLengths []) ;;
    _ <~ assign (set_totalLength (of_Z 0)) ;;
    turns <~ read_local (fun l => (List.length (points l) - 1)%nat) ;;
    _ <~ for_loop turns 0 (fun i =>
      length <~
        (if (i =? 1)%nat || (i =? 3)%nat then
           ret (Math_PI * cornerRadius / of_Z 2 + of_Z 2)
         else
           array <~ read_local points ;;
           q <~ index array (i + 1) ;;
           p <~ index array i ;;
           let dx := x q - x p in
           let dy := y q - y p in
           ret (Math_sqrt (dx * dx + dy * dy))) ;;
      _ <~ assign (fun l => set_segmentLengths (segmentLengths l ++ [length]) l) ;;
      assign (fun l => set_totalLength (totalLength l + length) l)) ;;
    array <~ read_local points ;;
    p0 <~ index array 0 ;;
    _ <~ assign (set_railPath
                   ("M " ++ toString (x p0) ++ " " ++ toString (y p0))) ;;
    _ <~ for_loop turns 1 (fun i =>
      array <~ read_local points ;;
      p <~ index array i ;;
      if (i =? 2)%nat then
        assign (fun l => set_railPath
          (railPath l
           ++ (" A " ++ toString cornerRadius ++ " "
                 ++ toString cornerRadius ++ " 0 0 1 "
                 ++ toString (x p) ++ " " ++ toString (y p) ++ " ")) l)
      else if (i =? 4)%nat then
        assign (fun l => set_railPath
          (railPath l
           ++ (" A " ++ toString cornerRadius ++ " "
                 ++ toString cornerRadius ++ " 0 0 1 "
                 ++ toString (x p) ++ " " ++ toString (y p))) l)
      else
        assign (fun l => set_railPath
          (railPath l
           ++ (" L " ++ toString (x p) ++ " " ++ toString (y p))) l)) ;;
    result <~ read_local (fun l =>
      Build_RailGeometry (railPath l) (points l) (segmentLengths l)
        (totalLength l)) ;;
    ret result.

(** Assigning to a property of a captured object. *)
Definition assign_captured (update : Scope -> Scope) : Exec unit :=
  fun m => Some (tt, {| scope := update (scope m); locals := locals m |}).

Definition set_scrollProgress (value : Component.SharedValue num) (s : Scope)
  : Scope :=
  {| SCROLLBAR_CONFIG := SCROLLBAR_CONFIG s;
     containerDimensions := containerDimensions s;
     contentHeight := contentHeight s;
     scrollViewHeight := scrollViewHeight s;
     scrollProgress := value;
     showRail := showRail s |}.

(** [handleScroll], the closure that does assign to a captured object:
    [scrollProgress.value = withSpring(...)]. *)
Definition handleScroll (nativeEvent : NativeScrollEvent num) : Exec unit :=
  let maxScrollDistance :=
    height (contentSize nativeEvent) - height (layoutMeasurement nativeEvent) in
  let progress :=
    if maxScrollDistance >? of_Z 0
    then y (contentOffset nativeEvent) / maxScrollDistance
    else of_Z 0 in
  config <~ read_scope SCROLLBAR_CONFIG ;;
  assign_captured
    (set_scrollProgress
       (Component.Animated
          (withSpring (Math_max (of_Z 0) (Math_min (of_Z 1) progress))
             {| damping := damping (animation config);
                stiffness := stiffness (animation config) |}))).

(** A call runs the body on locals of its own and hands back the value and
    the captured variables as the body left them. *)
Definition call {A : Type} (body : Exec A) (captured : Scope)
  : option (A * Scope) :=
  match body {| scope := captured;
                locals := {| points := []; segmentLengths := [];
                             totalLength := of_Z 0; railPath := "" |} |} with
  | Some (a, m) => Some (a, scope m)
  | None => None
  end.

(** Two calls, one after the other. *)
Definition call_twice {A : Type} (body : Exec A) (captured : Scope)
  : option (A * A * Scope) :=
  match call body captured with
  | Some (first, captured') =>
      match call body captured' with
      | Some (second, captured'') => Some (first, second, captured'')
      | None => None
      end
  | None => None
  end.

End Closure.

End Closure.

Arguments Closure.Scope : clear implicits.
Arguments Closure.Locals : clear implicits.
Arguments Closure.Machine : clear implicits.

(* ================================================================== *)
(** ** What the specification calls things *)

Section Specification.

Local Open Scope R_scope.

(** The Euclidean distance between two points. *)
Definition euclidean_distance (p q : Point R) : R :=
  sqrt ((x q - x p) ^ 2 + (y q - y p) ^ 2).

(** The length the rail gives to a corner: a quarter circle and the fixed
    correction. *)
Definition arc_length (cfg : Config R) : R :=
  PI * cornerRadius cfg / 2 + 2.

(** The sum of a sequence. *)
Definition sum (l : list R) : R := fold_right Rplus 0 l.

(** The empty geometry of an unmeasured viewport. *)
Definition empty_geometry : RailGeometry R :=
  {| railPath := ""; points := []; segmentLengths := []; totalLength := 0 |}.

(** The commands of a path description, each with its arguments separated by
    single spaces. An arc carries both radii, the rotation of the axes, the
    large-arc flag, the sweep flag and its end point. *)
Section PathCommands.

Variable toString : R -> string.

Local Open Scope string_scope.

Definition flag (b : bool) : string := if b then "1" else "0".

Definition move_to (p : Point R) : string :=
  "M " ++ toString (x p) ++ " " ++ toString (y p).

Definition line_to (p : Point R) : string :=
  "L " ++ toString (x p) ++ " " ++ toString (y p).

Definition arc_to (radius : R) (large_arc sweep : bool) (p : Point R)
  : string :=
  "A " ++ toString radius ++ " " ++ toString radius ++ " 0 "
    ++ flag large_arc ++ " " ++ flag sweep ++ " "
    ++ toString (x p) ++ " " ++ toString (y p).


End PathCommands.

End Specification.

(* ================================================================== *)
(** ** The two loops, for every number type and every list of points *)

Section Loops.

Context {num : Type} `{JSNumber num}.
Variable toString : num -> string.
Variable cfg : Config num.
Variable points : list (Point num).

Lemma bind_some {A B : Type} (m : option A) (k : A -> option B) (b : B) :
  bind m k = Some b <-> exists a : A, m = Some a /\ k a = Some b.
Proof.
  destruct m as [a |]; simpl; split.
  - intros Hk. exists a. split; [reflexivity | exact Hk].
  - intros (a' & Ha & Hk). injection Ha as ->. exact Hk.
  - discriminate.
  - intros (a' & Ha & _). discriminate.
Qed.

(** Below the last index the body of the first loop finds both of its
    points. *)
Lemma segment_length_returns (i : nat) :
  (i + 1 < List.length points)%nat ->
  exists l : num, segment_length cfg points i = Some l.
Proof.
  intros Hi. unfold segment_length.
  destruct ((i =? 1)%nat || (i =? 3)%nat); [eexists; reflexivity |].
  destruct (nth_error points (i + 1)) as [q |] eqn:Hq.
  - destruct (nth_error points i) as [p |] eqn:Hp.
    + eexists. reflexivity.
    + apply nth_error_None in Hp. lia.
  - apply nth_error_None in Hq. lia.
Qed.

(** The first loop throws nothing as long as it stops before the last
    point. *)
Lemma segment_loop_returns (n : nat) :
  forall (i : nat) (lengths : list num) (total : num),
    (i + n < List.length points)%nat ->
    exists r, segment_loop cfg points n i lengths total = Some r.
Proof.
  induction n as [| n IH]; intros i lengths total Hi; simpl.
  - eexists. reflexivity.
  - destruct (segment_length_returns i) as [l Hl]; [lia |].
    rewrite Hl. simpl. apply IH. lia.
Qed.

(** The invariant of the first loop: [totalLength] is the sum of the lengths
    pushed so far, added left to right from 0; each turn pushes one. *)
Lemma segment_loop_invariant (n : nat) :
  forall (i : nat) (lengths lengths' : list num) (total total' : num),
    segment_loop cfg points n i lengths total = Some (lengths', total') ->
    total = fold_left num_add lengths (of_Z 0) ->
    total' = fold_left num_add lengths' (of_Z 0)
    /\ List.length lengths' = (List.length lengths + n)%nat.
Proof.
  induction n as [| n IH]; intros i lengths lengths' total total' Hrun Hinv;
    simpl in Hrun.
  - injection Hrun as <- <-. split; [exact Hinv | lia].
  - apply bind_some in Hrun as (l & _ & Hrun).
    apply IH in Hrun as [Htotal Hlength].
    + split; [exact Htotal |]. rewrite Hlength, length_app. simpl. lia.
    + rewrite fold_left_app. simpl. now rewrite Hinv.
Qed.

(** The second loop throws nothing as long as it stops at the last point. *)
Lemma path_loop_returns (n : nat) :
  forall (i : nat) (path : string),
    (i + n <= List.length points)%nat ->
    exists r, path_loop toString cfg points n i path = Some r.
Proof.
  induction n as [| n IH]; intros i path Hi; simpl.
  - eexists. reflexivity.
  - unfold path_command.
    destruct (nth_error points i) as [p |] eqn:Hp.
    + simpl. destruct (i =? 2)%nat; [| destruct (i =? 4)%nat];
        simpl; apply IH; lia.
    + apply nth_error_None in Hp. lia.
Qed.

End Loops.

(* ================================================================== *)
(** ** The two branches of [calculateRailPath], for every number type *)

Section Unfolding.

Context {num : Type} `{JSNumber num}.
Variable toString : num -> string.

Local Open Scope string_scope.
Local Open Scope js_scope.

Lemma calculateRailPath_guard_true (cfg : Config num) (d : Dimensions num) :
  (width d === of_Z 0) || (height d === of_Z 0) = true ->
  calculateRailPath toString cfg d =
  Some {| railPath := ""; points := []; segmentLengths := [];
          totalLength := of_Z 0 |}.
Proof.
  intros Hguard. unfold calculateRailPath. rewrite Hguard. reflexivity.
Qed.

(** Past the guard both loops run to their end: five segments, five
    commands, and no index out of range. *)
Lemma calculateRailPath_guard_false (cfg : Config num) (d : Dimensions num) :
  (width d === of_Z 0) || (height d === of_Z 0) = false ->
  let c := cornerRadius cfg in
  let e := edgePadding cfg in
  let P0 := {| x := width d / horizontalPosition cfg; y := e + c |} in
  let P1 := {| x := width d - e - c; y := e + c |} in
  let P2 := {| x := width d - e; y := e + c + c |} in
  let P3 := {| x := width d - e; y := height d - e - c - c |} in
  let P4 := {| x := width d - e - c; y := height d - e - c |} in
  let P5 := {| x := width d / horizontalPosition cfg; y := height d - e - c |} in
  let straight p q :=
    Math_sqrt ((x q - x p) * (x q - x p) + (y q - y p) * (y q - y p)) in
  let arc := Math_PI * c / of_Z 2 + of_Z 2 in
  let arc_to p tail :=
    (" A " ++ toString c ++ " " ++ toString c ++ " 0 0 1 "
       ++ toString (x p) ++ " " ++ tail)%string in
  let line_to p := (" L " ++ toString (x p) ++ " " ++ toString (y p))%string in
  calculateRailPath toString cfg d =
  Some {| railPath :=
            (((((("M " ++ toString (x P0) ++ " " ++ toString (y P0))
                   ++ line_to P1) ++ arc_to P2 (toString (y P2) ++ " "))
                  ++ line_to P3)
                ++ arc_to P4 (toString (y P4))) ++ line_to P5)%string;
          points := [P0; P1; P2; P3; P4; P5];
          segmentLengths :=
            [straight P0 P1; arc; straight P2 P3; arc; straight P4 P5];
          totalLength :=
            of_Z 0 + straight P0 P1 + arc + straight P2 P3 + arc
            + straight P4 P5 |}.
Proof.
  intros Hguard. unfold calculateRailPath. rewrite Hguard. cbn.
  reflexivity.
Qed.

(** [calculateRailPath] always returns a geometry. *)
Lemma calculateRailPath_returns (cfg : Config num) (d : Dimensions num) :
  exists g : RailGeometry num, calculateRailPath toString cfg d = Some g.
Proof.
  destruct ((width d === of_Z 0) || (height d === of_Z 0)) eqn:Hguard.
  - eexists. apply calculateRailPath_guard_true, Hguard.
  - eexists. apply calculateRailPath_guard_false, Hguard.
Qed.

(** In every geometry returned, [totalLength] is the sum of
    [segmentLengths] in the order the loop added them, and there is one
    length per pair of neighbouring points. *)
Lemma calculateRailPath_running_total
    (cfg : Config num) (d : Dimensions num) (g : RailGeometry num) :
  calculateRailPath toString cfg d = Some g ->
  totalLength g = fold_left num_add (segmentLengths g) (of_Z 0)
  /\ List.length (segmentLengths g) = (List.length (points g) - 1)%nat.
Proof.
  unfold calculateRailPath.
  destruct ((width d === of_Z 0) || (height d === of_Z 0)).
  - intros Hg. injection Hg as <-. split; reflexivity.
  - intros Hg.
    apply bind_some in Hg as ([lengths total] & Hloop & Hg).
    apply bind_some in Hg as (p0 & _ & Hg).
    apply bind_some in Hg as (path & _ & Hg).
    injection Hg as <-.
    apply segment_loop_invariant in Hloop as [Htotal Hlength];
      [| reflexivity].
    split; [exact Htotal | exact Hlength].
Qed.

(** The three ways through [animatedMaskProps]. *)
Lemma animatedMaskProps_first_return
    (cfg : Config num) (showRail : bool) (contentHeight scrollViewHeight : num)
    (g : RailGeometry num) (progress : num) :
  negb showRail || (contentHeight <=? scrollViewHeight) || falsy (railPath g)
  = true ->
  animatedMaskProps toString cfg showRail contentHeight scrollViewHeight g
    progress =
  {| opacity := of_Z 0; strokeDasharray := "0 1000";
     strokeDashoffset := of_Z 0 |}.
Proof.
  intros Hguard. unfold animatedMaskProps. rewrite Hguard. reflexivity.
Qed.

Lemma animatedMaskProps_second_return
    (cfg : Config num) (showRail : bool) (contentHeight scrollViewHeight : num)
    (g : RailGeometry num) (progress : num) :
  (totalLength g === of_Z 0) = true ->
  animatedMaskProps toString cfg showRail contentHeight scrollViewHeight g
    progress =
  {| opacity := of_Z 0; strokeDasharray := "0 1000";
     strokeDashoffset := of_Z 0 |}.
Proof.
  intros Hguard. unfold animatedMaskProps. rewrite Hguard.
  destruct (negb showRail || (contentHeight <=? scrollViewHeight)
            || falsy (railPath g)); reflexivity.
Qed.

Lemma animatedMaskProps_last_return
    (cfg : Config num) (showRail : bool) (contentHeight scrollViewHeight : num)
    (g : RailGeometry num) (progress : num) :
  negb showRail || (contentHeight <=? scrollViewHeight) || falsy (railPath g)
  = false ->
  (totalLength g === of_Z 0) = false ->
  animatedMaskProps toString cfg showRail contentHeight scrollViewHeight g
    progress =
  {| opacity := of_Z 1;
     strokeDasharray :=
       (toString (visibleLength cfg) ++ " " ++ toString (totalLength g))%string;
     strokeDashoffset :=
       - (progress * totalLength g) + visibleLength cfg / of_Z 2 |}.
Proof.
  intros Hfirst Hsecond. unfold animatedMaskProps.
  rewrite Hfirst, Hsecond. reflexivity.
Qed.

End Unfolding.

(* ================================================================== *)
(** ** The comparisons on the reals *)

Section RealComparisons.

Local Open Scope R_scope.

Lemma Req_bool_true (a b : R) : Req_bool a b = true <-> a = b.
Proof.
  unfold Req_bool. destruct (Req_dec_T a b); split; congruence.
Qed.

Lemma Req_bool_false (a b : R) : Req_bool a b = false <-> a <> b.
Proof.
  unfold Req_bool. destruct (Req_dec_T a b); split; congruence.
Qed.

Lemma Rgt_bool_true (a b : R) : Rgt_bool a b = true <-> b < a.
Proof.
  unfold Rgt_bool. destruct (Rlt_dec b a); split; intros; congruence || easy.
Qed.

Lemma Rgt_bool_false (a b : R) : Rgt_bool a b = false <-> a <= b.
Proof.
  unfold Rgt_bool. destruct (Rlt_dec b a); split; intros; try congruence; lra.
Qed.

Lemma Rle_bool_true (a b : R) : Rle_bool a b = true <-> a <= b.
Proof.
  unfold Rle_bool. destruct (Rle_dec a b); split; intros; congruence || easy.
Qed.

Lemma Rle_bool_false (a b : R) : Rle_bool a b = false <-> b < a.
Proof.
  unfold Rle_bool. destruct (Rle_dec a b); split; intros; try congruence; lra.
Qed.

End RealComparisons.

(* ================================================================== *)
(** ** The rail over the reals *)

Section RealGuard.

Local Open Scope R_scope.

Lemma guard_measured (d : Dimensions R) :
  width d <> 0 -> height d <> 0 ->
  ((width d === of_Z 0) || (height d === of_Z 0))%js = false.
Proof.
  intros Hw Hh. apply orb_false_intro; apply Req_bool_false; assumption.
Qed.

Lemma guard_unmeasured (d : Dimensions R) :
  width d = 0 \/ height d = 0 ->
  ((width d === of_Z 0) || (height d === of_Z 0))%js = true.
Proof.
  intros [Hw | Hh]; apply orb_true_iff; [left | right];
    apply Req_bool_true; assumption.
Qed.

End RealGuard.

Section Strings.

Local Open Scope string_scope.

Lemma append_assoc (s1 s2 s3 : string) : (s1 ++ s2) ++ s3 = s1 ++ s2 ++ s3.
Proof.
  induction s1 as [| c s1 IH]; simpl; [reflexivity | now rewrite IH].
Qed.


Lemma falsy_false (s : string) : falsy s = false <-> s <> "".
Proof.
  destruct s; simpl; split; congruence.
Qed.

End Strings.

Section RealArithmetic.

Local Open Scope R_scope.

Lemma sqrt_squares (a b : R) : sqrt (a * a + b * b) = sqrt (a ^ 2 + b ^ 2).
Proof.
  f_equal. ring.
Qed.

Lemma sqrt_squares_nonneg (a b : R) : 0 <= sqrt (a ^ 2 + b ^ 2).
Proof.
  apply sqrt_pos.
Qed.

Lemma sqrt_squares_pos (a b : R) :
  0 < sqrt (a ^ 2 + b ^ 2) <-> a <> 0 \/ b <> 0.
Proof.
  split.
  - intros Hpos.
    destruct (Req_dec_T a 0) as [Ha | Ha]; [| now left].
    destruct (Req_dec_T b 0) as [Hb | Hb]; [| now right].
    subst. replace (0 ^ 2 + 0 ^ 2) with 0 in Hpos by ring.
    rewrite sqrt_0 in Hpos. lra.
  - intros Hne. apply sqrt_lt_R0.
    assert (0 <= a ^ 2) by apply pow2_ge_0.
    assert (0 <= b ^ 2) by apply pow2_ge_0.
    destruct Hne as [Ha | Hb].
    + destruct (Rdichotomy _ _ Ha); nra.
    + destruct (Rdichotomy _ _ Hb); nra.
Qed.

Lemma sqrt_level (a b : R) : b = 0 -> sqrt (a * a + b * b) = Rabs a.
Proof.
  intros ->. replace (a * a + 0 * 0) with (Rsqr a) by (unfold Rsqr; ring).
  apply sqrt_Rsqr_abs.
Qed.

Lemma sqrt_upright (a b : R) : a = 0 -> sqrt (a * a + b * b) = Rabs b.
Proof.
  intros ->. replace (0 * 0 + b * b) with (Rsqr b) by (unfold Rsqr; ring).
  apply sqrt_Rsqr_abs.
Qed.

Lemma point_eq (a b c d : R) :
  a = c -> b = d -> {| x := a; y := b |} = {| x := c; y := d |}.
Proof.
  intros -> ->. reflexivity.
Qed.

Lemma euclidean_distance_nonneg (p q : Point R) : 0 <= euclidean_distance p q.
Proof.
  apply sqrt_squares_nonneg.
Qed.

Lemma euclidean_distance_pos (p q : Point R) :
  0 < euclidean_distance p q <-> p <> q.
Proof.
  unfold euclidean_distance. rewrite sqrt_squares_pos.
  destruct p as [px py], q as [qx qy]. simpl. split.
  - intros [Hx | Hy] Heq; injection Heq as Hx' Hy'; lra.
  - intros Hne.
    destruct (Req_dec_T qx px) as [Hx | Hx]; [| left; lra].
    destruct (Req_dec_T qy py) as [Hy | Hy]; [| right; lra].
    subst. now contradiction Hne.
Qed.

Lemma euclidean_distance_sym (p q : Point R) :
  euclidean_distance p q = euclidean_distance q p.
Proof.
  unfold euclidean_distance. f_equal. ring.
Qed.

Lemma arc_length_pos (cfg : Config R) :
  0 <= cornerRadius cfg -> 0 < arc_length cfg.
Proof.
  intros Hc. unfold arc_length. pose proof PI_RGT_0 as Hpi.
  assert (0 <= PI * cornerRadius cfg) by (apply Rmult_le_pos; lra).
  lra.
Qed.

End RealArithmetic.

Section MeasuredViewport.

Local Open Scope R_scope.

Variable toString : R -> string.
Variable cfg : Config R.
Variables w h : R.
Hypothesis width_positive : 0 < w.
Hypothesis height_positive : 0 < h.

Lemma viewport_guard :
  ((width {| width := w; height := h |} === of_Z 0)
   || (height {| width := w; height := h |} === of_Z 0))%js = false.
Proof.
  apply guard_measured; simpl; lra.
Qed.

(** C1. For a viewport of positive width and height the geometry has exactly
    six points, in traversal order P0 .. P5, at the coordinates the
    specification lists. *)
Theorem calculateRailPath_points :
  exists g : RailGeometry R,
    calculateRailPath toString cfg {| width := w; height := h |} = Some g /\
    points g =
      [ {| x := w / horizontalPosition cfg;
           y := edgePadding cfg + cornerRadius cfg |};
        {| x := w - edgePadding cfg - cornerRadius cfg;
           y := edgePadding cfg + cornerRadius cfg |};
        {| x := w - edgePadding cfg;
           y := edgePadding cfg + 2 * cornerRadius cfg |};
        {| x := w - edgePadding cfg;
           y := h - edgePadding cfg - 2 * cornerRadius cfg |};
        {| x := w - edgePadding cfg - cornerRadius cfg;
           y := h - edgePadding cfg - cornerRadius cfg |};
        {| x := w / horizontalPosition cfg;
           y := h - edgePadding cfg - cornerRadius cfg |} ].
Proof.
  eexists. split.
  - apply calculateRailPath_guard_false, viewport_guard.
  - cbn. repeat (apply f_equal2; [apply point_eq; ring |]). reflexivity.
Qed.

(** The lengths and their running total, in the words of the
    specification. *)
Lemma measured_lengths :
  exists (g : RailGeometry R) (P0 P1 P2 P3 P4 P5 : Point R),
    calculateRailPath toString cfg {| width := w; height := h |} = Some g /\
    points g = [P0; P1; P2; P3; P4; P5] /\
    segmentLengths g =
      [ euclidean_distance P0 P1; arc_length cfg; euclidean_distance P2 P3;
        arc_length cfg; euclidean_distance P4 P5 ] /\
    totalLength g =
      0 + euclidean_distance P0 P1 + arc_length cfg + euclidean_distance P2 P3
      + arc_length cfg + euclidean_distance P4 P5.
Proof.
  do 7 eexists. split; [| split; [| split]].
  - apply calculateRailPath_guard_false, viewport_guard.
  - reflexivity.
  - unfold euclidean_distance, arc_length. cbn. rewrite !sqrt_squares.
    reflexivity.
  - unfold euclidean_distance, arc_length. cbn. rewrite !sqrt_squares.
    reflexivity.
Qed.

(** C2. The geometry has one length per consecutive pair of points: the
    segments at indices 1 and 3, (P1,P2) and (P3,P4), have length
    [PI * cornerRadius / 2 + 2], and the segments at indices 0, 2 and 4 have
    the Euclidean distance between their endpoints. *)
Theorem calculateRailPath_segmentLengths :
  exists (g : RailGeometry R) (P0 P1 P2 P3 P4 P5 : Point R),
    calculateRailPath toString cfg {| width := w; height := h |} = Some g /\
    points g = [P0; P1; P2; P3; P4; P5] /\
    segmentLengths g =
      [ euclidean_distance P0 P1;
        PI * cornerRadius cfg / 2 + 2;
        euclidean_distance P2 P3;
        PI * cornerRadius cfg / 2 + 2;
        euclidean_distance P4 P5 ].
Proof.
  destruct measured_lengths
    as (g & P0 & P1 & P2 & P3 & P4 & P5 & Hg & Hpoints & Hlengths & _).
  exists g, P0, P1, P2, P3, P4, P5. auto.
Qed.

(** C5, as the code has it. The geometry has exactly five segment lengths,
    none of them negative; with a corner radius that is not negative the two
    arcs are positive, and a straight segment is positive exactly when its
    two endpoints differ. [totalLength] is the sum of the five lengths. *)
Theorem calculateRailPath_lengths_nonneg :
  0 <= cornerRadius cfg ->
  exists (g : RailGeometry R) (P0 P1 P2 P3 P4 P5 : Point R)
         (l0 l1 l2 l3 l4 : R),
    calculateRailPath toString cfg {| width := w; height := h |} = Some g /\
    points g = [P0; P1; P2; P3; P4; P5] /\
    segmentLengths g = [l0; l1; l2; l3; l4] /\
    Forall (fun l => 0 <= l) (segmentLengths g) /\
    0 < l1 /\ 0 < l3 /\
    (0 < l0 <-> P0 <> P1) /\ (0 < l2 <-> P2 <> P3) /\ (0 < l4 <-> P4 <> P5) /\
    totalLength g = sum (segmentLengths g).
Proof.
  intros Hradius.
  destruct measured_lengths
    as (g & P0 & P1 & P2 & P3 & P4 & P5 & Hg & Hpoints & Hlengths & Htotal).
  pose proof (arc_length_pos cfg Hradius) as Harc.
  exists g, P0, P1, P2, P3, P4, P5.
  exists (euclidean_distance P0 P1), (arc_length cfg),
    (euclidean_distance P2 P3), (arc_length cfg), (euclidean_distance P4 P5).
  split; [exact Hg |]. split; [exact Hpoints |]. split; [exact Hlengths |].
  rewrite Hlengths, Htotal.
  split; [| split; [| split; [| split; [| split; [| split]]]]].
  - repeat (apply Forall_cons;
              [first [apply euclidean_distance_nonneg | apply Rlt_le, Harc] |]).
    apply Forall_nil.
  - exact Harc.
  - exact Harc.
  - apply euclidean_distance_pos.
  - apply euclidean_distance_pos.
  - apply euclidean_distance_pos.
  - unfold sum. simpl. ring.
Qed.

(** The geometry of a measured viewport passes the two tests that
    [animatedMaskProps] makes on it: its path description is not empty and,
    with a corner radius that is not negative, its total length is
    positive. *)
Lemma measured_geometry_drawable (g : RailGeometry R) :
  0 <= cornerRadius cfg ->
  calculateRailPath toString cfg {| width := w; height := h |} = Some g ->
  railPath g <> ""%string /\ 0 < totalLength g.
Proof.
  intros Hradius Hg. split.
  - rewrite calculateRailPath_guard_false in Hg by apply viewport_guard.
    injection Hg as <-. cbn. discriminate.
  - destruct measured_lengths
      as (g' & P0 & P1 & P2 & P3 & P4 & P5 & Hg' & _ & _ & Htotal).
    rewrite Hg in Hg'. injection Hg' as <-. rewrite Htotal.
    pose proof (arc_length_pos cfg Hradius).
    pose proof (euclidean_distance_nonneg P0 P1).
    pose proof (euclidean_distance_nonneg P2 P3).
    pose proof (euclidean_distance_nonneg P4 P5).
    lra.
Qed.

(** C8. The path description is a move to P0 followed by one command per
    later point, separated by spaces: a line to P1, P3 and P5, and at P2 and
    P4 an arc of radius [cornerRadius], large-arc flag 0 and sweep flag 1.
    (The first arc is followed by one more space.) *)
Theorem calculateRailPath_railPath :
  exists (g : RailGeometry R) (P0 P1 P2 P3 P4 P5 : Point R),
    calculateRailPath toString cfg {| width := w; height := h |} = Some g /\
    points g = [P0; P1; P2; P3; P4; P5] /\
    railPath g =
      String.concat " "
        [ move_to toString P0;
          line_to toString P1;
          (arc_to toString (cornerRadius cfg) false true P2 ++ " ")%string;
          line_to toString P3;
          arc_to toString (cornerRadius cfg) false true P4;
          line_to toString P5 ].
Proof.
  do 7 eexists. split; [| split].
  - apply calculateRailPath_guard_false, viewport_guard.
  - reflexivity.
  - unfold move_to, line_to, arc_to, flag. cbn.
    repeat (rewrite !append_assoc; cbn). reflexivity.
Qed.


End MeasuredViewport.

(** *** The rail of the component's own configuration *)

Section DefaultRail.

Local Open Scope R_scope.

Variable toString : R -> string.
Variables w h : R.
Variable g : RailGeometry R.
Hypothesis width_positive : 0 < w.
Hypothesis height_positive : 0 < h.
Hypothesis geometry :
  calculateRailPath toString SCROLLBAR_CONFIG {| width := w; height := h |}
  = Some g.



End DefaultRail.

Lemma calculateRailPath_points_witness :
  (0 < 300 /\ 0 < 600)%R /\
  exists g : RailGeometry R,
    calculateRailPath (fun _ => "n"%string) SCROLLBAR_CONFIG
      {| width := 300%R; height := 600%R |} = Some g /\
    points g =
      [ {| x := 300 / (11 / 10); y := 10 + 12 |};
        {| x := 300 - 10 - 12; y := 10 + 12 |};
        {| x := 300 - 10; y := 10 + 2 * 12 |};
        {| x := 300 - 10; y := 600 - 10 - 2 * 12 |};
        {| x := 300 - 10 - 12; y := 600 - 10 - 12 |};
        {| x := 300 / (11 / 10); y := 600 - 10 - 12 |} ]%R.
Proof.
  assert (Hw : (0 < 300)%R) by lra.
  assert (Hh : (0 < 600)%R) by lra.
  split; [split; assumption |].
  exact (calculateRailPath_points (fun _ => "n"%string) SCROLLBAR_CONFIG
           Hw Hh).
Defined.

Lemma calculateRailPath_segmentLengths_witness :
  (0 < 300 /\ 0 < 600)%R /\
  exists g : RailGeometry R,
    calculateRailPath (fun _ => "n"%string) SCROLLBAR_CONFIG
      {| width := 300%R; height := 600%R |} = Some g /\
    nth_error (segmentLengths g) 1 = Some (PI * 12 / 2 + 2)%R.
Proof.
  assert (Hw : (0 < 300)%R) by lra.
  assert (Hh : (0 < 600)%R) by lra.
  split; [split; assumption |].
  destruct (calculateRailPath_segmentLengths (fun _ => "n"%string)
              SCROLLBAR_CONFIG Hw Hh)
    as (g & P0 & P1 & P2 & P3 & P4 & P5 & Hg & _ & Hlengths).
  exists g. split; [exact Hg |]. rewrite Hlengths. reflexivity.
Defined.

Lemma calculateRailPath_lengths_nonneg_witness :
  (0 < 300 /\ 0 < 600 /\ 0 <= 12)%R /\
  exists g : RailGeometry R,
    calculateRailPath (fun _ => "n"%string) SCROLLBAR_CONFIG
      {| width := 300%R; height := 600%R |} = Some g /\
    totalLength g = sum (segmentLengths g).
Proof.
  assert (Hw : (0 < 300)%R) by lra.
  assert (Hh : (0 < 600)%R) by lra.
  assert (Hc : (0 <= 12)%R) by lra.
  split; [repeat split; assumption |].
  destruct (calculateRailPath_lengths_nonneg (fun _ => "n"%string)
              (@SCROLLBAR_CONFIG R R_JSNumber) Hw Hh Hc)
    as (g & P0 & P1 & P2 & P3 & P4 & P5 & l0 & l1 & l2 & l3 & l4 & Hg & Hrest).
  exists g. split; [exact Hg |]. apply Hrest.
Defined.

Lemma calculateRailPath_railPath_witness :
  (0 < 300 /\ 0 < 600)%R /\
  exists g : RailGeometry R,
    calculateRailPath (fun _ => "n"%string) SCROLLBAR_CONFIG
      {| width := 300%R; height := 600%R |} = Some g /\
    railPath g
    = "M n n L n n A n n 0 0 1 n n  L n n A n n 0 0 1 n n L n n"%string.
Proof.
  assert (Hw : (0 < 300)%R) by lra.
  assert (Hh : (0 < 600)%R) by lra.
  split; [split; assumption |].
  destruct (calculateRailPath_railPath (fun _ => "n"%string) SCROLLBAR_CONFIG
              Hw Hh)
    as (g & P0 & P1 & P2 & P3 & P4 & P5 & Hg & _ & Hpath).
  exists g. split; [exact Hg |]. rewrite Hpath. reflexivity.
Defined.

(** C5, refuted as stated. In a viewport 68 high the vertical run of the
    rail has its two endpoints on each other: the segment at index 2 has
    length 0, so the lengths are not all positive. *)
Lemma segmentLengths_not_all_positive :
  exists g : RailGeometry R,
    calculateRailPath (fun _ => "n"%string) SCROLLBAR_CONFIG
      {| width := 300%R; height := 68%R |} = Some g /\
    nth_error (segmentLengths g) 2 = Some 0%R /\
    ~ Forall (fun l => (0 < l)%R) (segmentLengths g).
Proof.
  eexists. split; [| split].
  - apply calculateRailPath_guard_false, guard_measured; simpl; lra.
  - cbn. f_equal.
    replace ((300 - 10 - (300 - 10)) * (300 - 10 - (300 - 10))
             + (68 - 10 - 12 - 12 - (10 + 12 + 12))
               * (68 - 10 - 12 - 12 - (10 + 12 + 12)))%R with 0%R by ring.
    apply sqrt_0.
  - cbn. intros Hall.
    apply Forall_inv_tail, Forall_inv_tail, Forall_inv in Hall.
    replace ((300 - 10 - (300 - 10)) * (300 - 10 - (300 - 10))
             + (68 - 10 - 12 - 12 - (10 + 12 + 12))
               * (68 - 10 - 12 - 12 - (10 + 12 + 12)))%R with 0%R in Hall
      by ring.
    rewrite sqrt_0 in Hall. lra.
Qed.

(* ================================================================== *)
(** ** The unmeasured viewport *)

(** C6. When the width or the height of the viewport is 0,
    [calculateRailPath] returns the empty geometry: no points, no segment
    lengths, total length 0 and the empty path description. It returns a
    value: nothing is thrown. *)
Theorem calculateRailPath_unmeasured
    (toString : R -> string) (cfg : Config R) (w h : R) :
  (w = 0 \/ h = 0)%R ->
  calculateRailPath toString cfg {| width := w; height := h |} =
  Some {| railPath := ""; points := []; segmentLengths := [];
          totalLength := 0%R |}.
Proof.
  intros Hzero.
  exact (calculateRailPath_guard_true toString cfg
           {| width := w; height := h |}
           (guard_unmeasured {| width := w; height := h |} Hzero)).
Qed.

Lemma calculateRailPath_unmeasured_witness :
  (0 = 0 \/ 600 = 0)%R /\
  calculateRailPath (fun _ => "n"%string) SCROLLBAR_CONFIG
    {| width := 0%R; height := 600%R |} =
  Some empty_geometry.
Proof.
  assert (Hzero : (0 = 0 \/ 600 = 0)%R) by (left; reflexivity).
  split; [exact Hzero |].
  exact (calculateRailPath_unmeasured (fun _ => "n"%string) SCROLLBAR_CONFIG
           Hzero).
Defined.

(* ================================================================== *)
(** ** The scroll progress *)

Section Progress.

Local Open Scope R_scope.

(** C7. Whatever the scroll event carries, the target that [handleScroll]
    hands to the spring lies in [[0, 1]]; and it is 0 whenever the content is
    not taller than the viewport, where nothing is divided. *)
Theorem handleScroll_clamped (cfg : Config R) (e : NativeScrollEvent R) :
  0 <= toValue (handleScroll cfg e) <= 1 /\
  (height (contentSize e) - height (layoutMeasurement e) <= 0 ->
   toValue (handleScroll cfg e) = 0).
Proof.
  unfold handleScroll, withSpring. cbn.
  set (m := height (contentSize e) - height (layoutMeasurement e)).
  split.
  - split.
    + apply Rmax_l.
    + apply Rmax_lub; [lra | apply Rmin_l].
  - intros Hm. apply Rgt_bool_false in Hm. rewrite Hm.
    rewrite Rmin_right by lra. apply Rmax_left. lra.
Qed.

(** Inside the scrollable range the target is the plain ratio. *)
Lemma handleScroll_ratio (cfg : Config R) (e : NativeScrollEvent R) :
  let m := height (contentSize e) - height (layoutMeasurement e) in
  0 < m -> 0 <= y (contentOffset e) <= m ->
  toValue (handleScroll cfg e) = y (contentOffset e) / m.
Proof.
  intros m Hm Hy. unfold handleScroll, withSpring. cbn. fold m.
  apply Rgt_bool_true in Hm as Hgt. rewrite Hgt.
  assert (0 <= y (contentOffset e) / m <= 1) as [H0 H1].
  { split.
    - apply Rmult_le_pos; [lra |]. apply Rlt_le, Rinv_0_lt_compat, Hm.
    - apply Rmult_le_reg_r with m; [exact Hm |].
      unfold Rdiv. rewrite Rmult_assoc, Rinv_l by lra. lra. }
  rewrite Rmin_right by exact H1. apply Rmax_right. exact H0.
Qed.

End Progress.

Lemma handleScroll_clamped_witness :
  let e : NativeScrollEvent R :=
    {| contentOffset := {| x := 0; y := 50 |};
       contentSize := {| width := 300; height := 400 |};
       layoutMeasurement := {| width := 300; height := 400 |} |}%R in
  (height (contentSize e) - height (layoutMeasurement e) <= 0)%R /\
  toValue (handleScroll SCROLLBAR_CONFIG e) = 0%R.
Proof.
  intros e.
  assert (Hfits : (height (contentSize e) - height (layoutMeasurement e)
                   <= 0)%R) by (simpl; lra).
  split; [exact Hfits |].
  exact (proj2 (handleScroll_clamped SCROLLBAR_CONFIG e) Hfits).
Defined.

(* ================================================================== *)
(** ** The indicator *)

Section Indicator.

Local Open Scope R_scope.

Variable toString : R -> string.
Variable cfg : Config R.
Variables contentHeight scrollViewHeight : R.
Variable g : RailGeometry R.



(** Before the first layout event the viewport is 0 by 0, the geometry is
    empty and the indicator is hidden. *)
Lemma unmeasured_viewport_hides_indicator
    (showRail : bool) (progress : R) (g0 : RailGeometry R) :
  calculateRailPath toString cfg {| width := 0; height := 0 |} = Some g0 ->
  opacity (animatedMaskProps toString cfg showRail contentHeight
             scrollViewHeight g0 progress) = 0.
Proof.
  intros Hg0.
  rewrite calculateRailPath_guard_true in Hg0
    by (apply guard_unmeasured; left; reflexivity).
  injection Hg0 as <-.
  rewrite animatedMaskProps_first_return; [reflexivity |].
  cbn. now rewrite orb_true_r.
Qed.

End Indicator.

(* ================================================================== *)
(** ** Determinism, for every number type *)

Section Determinism.

Context {num : Type} `{JSNumber num}.
Variable toString : num -> string.

(** [calculateRailPath] is a function of the viewport and of the three
    configuration values it reads, and it writes nothing but its own locals:
    two calls that agree on the width, the height, the corner radius, the
    edge padding and the horizontal position return the same geometry, that
    is the same points, segment lengths, total length and path description,
    whatever else differs between them. *)
Theorem calculateRailPath_deterministic
    (cfg1 cfg2 : Config num) (d1 d2 : Dimensions num) :
  width d1 = width d2 ->
  height d1 = height d2 ->
  cornerRadius cfg1 = cornerRadius cfg2 ->
  edgePadding cfg1 = edgePadding cfg2 ->
  horizontalPosition cfg1 = horizontalPosition cfg2 ->
  calculateRailPath toString cfg1 d1 = calculateRailPath toString cfg2 d2.
Proof.
  intros Hw Hh Hc He Hp. unfold calculateRailPath.
  rewrite Hw, Hh.
  destruct ((width d2 === of_Z 0) || (height d2 === of_Z 0))%js;
    [reflexivity |].
  cbn. rewrite Hc, He, Hp. reflexivity.
Qed.

End Determinism.

(* ================================================================== *)
(** ** The order and the division of doubles *)

Section DoubleOrder.

Local Open Scope float_scope.

Lemma SFcompare_antisym (a b : spec_float) :
  SFcompare b a = option_map CompOpp (SFcompare a b).
Proof.
  destruct a as [sa | sa | | sa ma ea], b as [sb | sb | | sb mb eb];
    try destruct sa; try destruct sb; simpl; try reflexivity.
  - rewrite (Z.compare_antisym ea eb).
    destruct (ea ?= eb)%Z; simpl; try reflexivity.
    now rewrite (Pos.compare_cont_antisym ma mb Eq).
  - rewrite (Z.compare_antisym ea eb).
    destruct (ea ?= eb)%Z; simpl; try reflexivity.
    now rewrite (Pos.compare_cont_antisym ma mb Eq).
Qed.

Lemma SFcompare_defined (a b : spec_float) :
  a <> S754_nan -> b <> S754_nan -> exists c, SFcompare a b = Some c.
Proof.
  intros Ha Hb.
  destruct a as [sa | sa | | sa ma ea], b as [sb | sb | | sb mb eb];
    simpl; try congruence; eexists; reflexivity.
Qed.

Lemma is_nan_false (a : float) : is_nan a = false -> Prim2SF a <> S754_nan.
Proof.
  unfold is_nan. rewrite eqb_spec. intros Hself Hnan.
  rewrite Hnan in Hself. discriminate.
Qed.

Lemma float_ltb_leb (a b : float) : (a <? b) = true -> (a <=? b) = true.
Proof.
  rewrite ltb_spec, leb_spec. unfold SFltb, SFleb.
  destruct (SFcompare (Prim2SF a) (Prim2SF b)) as [[] |]; congruence.
Qed.

Lemma float_ltb_eqb (a b : float) : (a <? b) = true -> (b =? a) = false.
Proof.
  rewrite ltb_spec, eqb_spec. unfold SFltb, SFeqb.
  rewrite (SFcompare_antisym (Prim2SF a) (Prim2SF b)).
  destruct (SFcompare (Prim2SF a) (Prim2SF b)) as [[] |]; simpl; congruence.
Qed.

Lemma float_not_ltb_leb (a b : float) :
  is_nan a = false -> is_nan b = false ->
  (a <? b) = false -> (b <=? a) = true.
Proof.
  intros Ha Hb. apply is_nan_false in Ha, Hb.
  rewrite ltb_spec, leb_spec. unfold SFltb, SFleb.
  rewrite (SFcompare_antisym (Prim2SF a) (Prim2SF b)).
  destruct (SFcompare_defined Ha Hb) as [c Hc]. rewrite Hc.
  destruct c; simpl; congruence.
Qed.

Lemma float_max_0_unit (p : float) :
  is_nan p = false -> (p <=? 1) = true ->
  (0 <=? float_max 0 p) = true /\ (float_max 0 p <=? 1) = true.
Proof.
  intros Hnan Hle. unfold float_max.
  change (is_nan 0) with false. rewrite Hnan. simpl.
  destruct (0 <? p) eqn:Hpos.
  - split; [apply float_ltb_leb, Hpos | exact Hle].
  - change (get_sign 0) with false.
    destruct (p <? 0); split; reflexivity.
Qed.

Lemma float_clamp (p : float) :
  is_nan p = false ->
  (0 <=? float_max 0 (float_min 1 p)) = true
  /\ (float_max 0 (float_min 1 p) <=? 1) = true.
Proof.
  intros Hnan. unfold float_min.
  change (is_nan 1) with false. rewrite Hnan. simpl.
  destruct (1 <? p) eqn:Habove.
  - split; reflexivity.
  - change (get_sign 1) with false.
    assert (Hle : (p <=? 1) = true)
      by (apply float_not_ltb_leb; [reflexivity | exact Hnan | exact Habove]).
    destruct (p <? 1); apply float_max_0_unit; assumption.
Qed.
End DoubleOrder.

Section DoubleRounding.

Local Open Scope Z_scope.

Lemma shr_1_nonneg (mrs : shr_record) :
  0 <= shr_m mrs -> 0 <= shr_m (shr_1 mrs).
Proof.
  destruct mrs as [m r s]. simpl.
  destruct m as [| [p | p |] | p]; simpl; lia.
Qed.

Lemma iter_shr_1_nonneg (p : positive) :
  forall mrs : shr_record,
    0 <= shr_m mrs -> 0 <= shr_m (SpecFloat.iter_pos shr_1 p mrs).
Proof.
  induction p as [p IH | p IH |]; intros mrs Hm; simpl.
  - apply IH, IH, shr_1_nonneg, Hm.
  - apply IH, IH, Hm.
  - apply shr_1_nonneg, Hm.
Qed.

Lemma shr_fexp_nonneg (m e : Z) (l : location) :
  0 <= m -> 0 <= shr_m (fst (shr_fexp prec emax m e l)).
Proof.
  intros Hm. unfold shr_fexp, shr.
  assert (Hrec : 0 <= shr_m (shr_record_of_loc m l))
    by (destruct l as [| []]; exact Hm).
  destruct (fexp prec emax (Zdigits2 m + e) - e); simpl;
    [exact Hrec | apply iter_shr_1_nonneg, Hrec | exact Hrec].
Qed.

Lemma round_nearest_even_nonneg (m : Z) (l : location) :
  0 <= m -> 0 <= round_nearest_even m l.
Proof.
  intros Hm. destruct l as [| []]; simpl; try lia.
  destruct (Z.even m); lia.
Qed.

Lemma binary_round_aux_not_nan (s : bool) (m e : Z) (l : location) :
  0 <= m -> binary_round_aux prec emax s m e l <> S754_nan.
Proof.
  intros Hm. unfold binary_round_aux.
  pose proof (shr_fexp_nonneg e l Hm) as Hfirst.
  destruct (shr_fexp prec emax m e l) as [mrs' e']. simpl in Hfirst.
  pose proof (shr_fexp_nonneg e' loc_Exact
                (round_nearest_even_nonneg (loc_of_shr_record mrs') Hfirst))
    as Hsecond.
  destruct (shr_fexp prec emax
              (round_nearest_even (shr_m mrs') (loc_of_shr_record mrs')) e'
              loc_Exact) as [mrs'' e'']. simpl in Hsecond.
  destruct (shr_m mrs'') as [| q | q]; [discriminate | | lia].
  destruct (e'' <=? emax - prec); discriminate.
Qed.

Lemma SFdiv_core_binary_nonneg (m1 m2 : positive) (e1 e2 : Z) :
  0 <= fst (fst (SFdiv_core_binary prec emax (Zpos m1) e1 (Zpos m2) e2)).
Proof.
  unfold SFdiv_core_binary.
  set (s := e1 - e2 - _).
  set (m' := match s with Z0 => Zpos m1 | Zpos _ => Z.shiftl (Zpos m1) s
                        | Zneg _ => 0 end).
  assert (Hm' : 0 <= m').
  { subst m'. destruct s; try lia. apply Z.shiftl_nonneg. lia. }
  pose proof (Z.div_pos m' (Zpos m2) Hm' eq_refl) as Hq.
  unfold Z.div in Hq.
  destruct (Z.div_eucl m' (Zpos m2)) as [q r]. exact Hq.
Qed.

(** A finite dividend and a positive divisor have a quotient. *)
Lemma SFdiv_not_nan (a b : spec_float) :
  a <> S754_nan -> (forall s, a <> S754_infinity s) ->
  SFltb (S754_zero false) b = true ->
  SFdiv prec emax a b <> S754_nan.
Proof.
  intros Hnan Hinf Hpos.
  destruct a as [sa | sa | | sa ma ea].
  - destruct b as [sb | sb | | sb mb eb]; discriminate.
  - now contradiction (Hinf sa).
  - now contradiction Hnan.
  - destruct b as [sb | sb | | sb mb eb]; try discriminate. simpl.
    pose proof (SFdiv_core_binary_nonneg ma mb ea eb) as Hq.
    destruct (SFdiv_core_binary prec emax (Zpos ma) ea (Zpos mb) eb)
      as [[q e] l].
    apply binary_round_aux_not_nan, Hq.
Qed.

End DoubleRounding.

Section DoubleDivision.

Local Open Scope float_scope.

Lemma SFcompare_refl (a : spec_float) :
  a <> S754_nan -> SFcompare a a = Some Eq.
Proof.
  intros Hnan. destruct a as [sa | sa | | sa ma ea]; simpl.
  - reflexivity.
  - destruct sa; reflexivity.
  - now contradiction Hnan.
  - rewrite Z.compare_refl, Pos.compare_cont_refl. destruct sa; reflexivity.
Qed.

Lemma is_nan_false_iff (a : float) :
  is_nan a = false <-> Prim2SF a <> S754_nan.
Proof.
  split; [apply is_nan_false |].
  intros Hnan. unfold is_nan. rewrite eqb_spec. unfold SFeqb.
  now rewrite SFcompare_refl.
Qed.

Lemma is_finite_true (a : float) :
  is_finite a = true ->
  Prim2SF a <> S754_nan /\ forall s, Prim2SF a <> S754_infinity s.
Proof.
  unfold is_finite. intros Hfinite.
  apply negb_true_iff, orb_false_elim in Hfinite as [Hnan Hinf].
  split; [apply is_nan_false, Hnan |].
  intros s Hs. unfold is_infinity in Hinf.
  rewrite eqb_spec, abs_spec, Hs in Hinf. discriminate.
Qed.

(** A finite number divided by a positive one is a number. *)
Lemma float_div_is_number (a b : float) :
  is_finite a = true -> (0 <? b) = true -> is_nan (a / b) = false.
Proof.
  intros Hfinite Hpos. apply is_finite_true in Hfinite as [Hnan Hinf].
  apply is_nan_false_iff. rewrite div_spec. rewrite ltb_spec in Hpos.
  apply SFdiv_not_nan; assumption.
Qed.

End DoubleDivision.

(* ================================================================== *)
(** ** The component run on doubles *)

Section Doubles.

Local Open Scope float_scope.

(** A positive width and a positive height pass the guard of
    [calculateRailPath], so what holds past the guard for every number type
    holds for every such pair of doubles. *)
Lemma double_guard_measured (d : Dimensions float) :
  (0 <? width d) = true -> (0 <? height d) = true ->
  ((width d === of_Z 0) || (height d === of_Z 0))%js = false.
Proof.
  intros Hw Hh. apply orb_false_intro; apply float_ltb_eqb; assumption.
Qed.

(** X19. So on doubles too a measured viewport has six points and five
    lengths, the corners at indices 1 and 3, and a total that is the running
    sum. *)
Lemma calculateRailPath_doubles_measured
    (toString : float -> string) (cfg : Config float) (d : Dimensions float) :
  (0 <? width d) = true -> (0 <? height d) = true ->
  exists g : RailGeometry float,
    calculateRailPath toString cfg d = Some g /\
    List.length (points g) = 6%nat /\
    List.length (segmentLengths g) = 5%nat /\
    nth_error (segmentLengths g) 1
    = Some (Math_PI * cornerRadius cfg / of_Z 2 + of_Z 2)%js /\
    nth_error (segmentLengths g) 3
    = Some (Math_PI * cornerRadius cfg / of_Z 2 + of_Z 2)%js /\
    totalLength g = fold_left PrimFloat.add (segmentLengths g) 0.
Proof.
  intros Hw Hh. eexists. split.
  - apply calculateRailPath_guard_false, double_guard_measured; assumption.
  - repeat split; reflexivity.
Qed.

(** X18. On doubles, a scroll event with a finite offset sends the spring
    to a target in [[0, 1]], whatever the two heights are. *)
Lemma handleScroll_doubles_clamped
    (cfg : Config float) (e : NativeScrollEvent float) :
  is_finite (y (contentOffset e)) = true ->
  (0 <=? toValue (handleScroll cfg e)) = true
  /\ (toValue (handleScroll cfg e) <=? 1) = true.
Proof.
  intros Hfinite. unfold handleScroll, withSpring. cbn.
  apply float_clamp.
  destruct (0 <? height (contentSize e) - height (layoutMeasurement e))
    eqn:Hrange.
  - apply float_div_is_number; assumption.
  - reflexivity.
Qed.

(** On doubles, content that does not exceed its viewport sends the spring
    to 0. *)
Lemma handleScroll_doubles_unscrollable
    (cfg : Config float) (e : NativeScrollEvent float) :
  (0 <? height (contentSize e) - height (layoutMeasurement e)) = false ->
  toValue (handleScroll cfg e) = 0.
Proof.
  intros Hrange. unfold handleScroll, withSpring. cbn. rewrite Hrange.
  reflexivity.
Qed.

(** The rail of a 300 by 600 viewport: P0 is about (272.7, 22), P2 is
    (290, 34), each corner is about 20.85 long, and the vertical run is 532
    long. *)
Example rail_300_600 :
  exists (g : RailGeometry float) (P0 P1 P3 P4 P5 : Point float)
         (l0 arc l4 : float),
    calculateRailPath (fun _ => "n"%string) SCROLLBAR_CONFIG
      {| width := 300; height := 600 |}
    = Some g /\
    points g = [P0; P1; {| x := 290; y := 34 |}; P3; P4; P5] /\
    (2727 <? x P0 * 10) && (x P0 * 10 <? 2728) = true /\
    y P0 = 22 /\
    segmentLengths g = [l0; arc; 532; arc; l4] /\
    (2084 <? arc * 100) && (arc * 100 <? 2085) = true.
Proof.
  vm_compute. do 9 eexists. repeat split; reflexivity.
Qed.

(** In a viewport 68 high the vertical run has length 0 on doubles too. *)
Example rail_300_68 :
  option_map (fun g : RailGeometry float => nth_error (segmentLengths g) 2)
    (calculateRailPath (fun _ => "n"%string) SCROLLBAR_CONFIG
       {| width := 300; height := 68 |})
  = Some (Some 0).
Proof.
  vm_compute. reflexivity.
Qed.

(** Content 2000 high in a viewport 800 high, scrolled by 600: the spring is
    sent to 0.5. *)
Example scroll_600_of_1200 :
  handleScroll SCROLLBAR_CONFIG
    {| contentOffset := {| x := 0; y := 600 |};
       contentSize := {| width := 300; height := 2000 |};
       layoutMeasurement := {| width := 300; height := 800 |} |}
  = {| toValue := 0.5;
       spring := {| damping := 30; stiffness := 500 |} |}.
Proof.
  vm_compute. reflexivity.
Qed.

(** An elastic bounce above the top, and an overscroll past the bottom. *)
Example scroll_out_of_range :
  toValue (handleScroll SCROLLBAR_CONFIG
    {| contentOffset := {| x := 0; y := -40 |};
       contentSize := {| width := 300; height := 2000 |};
       layoutMeasurement := {| width := 300; height := 800 |} |}) = 0 /\
  toValue (handleScroll SCROLLBAR_CONFIG
    {| contentOffset := {| x := 0; y := 1300 |};
       contentSize := {| width := 300; height := 2000 |};
       layoutMeasurement := {| width := 300; height := 800 |} |}) = 1.
Proof.
  vm_compute. split; reflexivity.
Qed.

(** Content that fits its viewport hides the indicator. *)
Example indicator_400_400 :
  option_map
    (fun g => opacity (animatedMaskProps (fun _ => "n"%string)
                         SCROLLBAR_CONFIG true 400 400 g 0.5))
    (calculateRailPath (fun _ => "n"%string) SCROLLBAR_CONFIG
       {| width := 300; height := 600 |})
  = Some 0.
Proof.
  vm_compute. reflexivity.
Qed.

End Doubles.

(* ================================================================== *)
(** ** More about the rail *)

Section RailShape.

Local Open Scope R_scope.

Variable toString : R -> string.
Variable cfg : Config R.
Variables w h : R.
Hypothesis width_positive : 0 < w.
Hypothesis height_positive : 0 < h.

Lemma inverse_at_most_one (a : R) : 1 <= a -> 0 < / a <= 1.
Proof.
  intros Ha. split.
  - apply Rinv_0_lt_compat. lra.
  - rewrite <- Rinv_1. apply Rinv_le_contravar; lra.
Qed.

(** X1. The rail stays inside the viewport: with an edge padding and a
    corner radius that are not negative, a horizontal position of at least
    1, a viewport at least [edgePadding + cornerRadius] wide and at least
    [edgePadding + 2 * cornerRadius] high, every point of the rail has its x
    in [[0, w]] and its y in [[0, h]]. *)
Theorem rail_inside_viewport :
  0 <= edgePadding cfg -> 0 <= cornerRadius cfg ->
  1 <= horizontalPosition cfg ->
  edgePadding cfg + cornerRadius cfg <= w ->
  edgePadding cfg + 2 * cornerRadius cfg <= h ->
  exists g : RailGeometry R,
    calculateRailPath toString cfg {| width := w; height := h |} = Some g /\
    Forall (fun p : Point R => 0 <= x p <= w /\ 0 <= y p <= h) (points g).
Proof.
  intros He Hc Hp Hwide Hhigh.
  destruct (inverse_at_most_one Hp) as [Hinv0 Hinv1].
  assert (Hstart : 0 <= w / horizontalPosition cfg <= w)
    by (unfold Rdiv; split; nra).
  eexists. split.
  - apply calculateRailPath_guard_false, guard_measured; simpl; lra.
  - cbn. repeat (apply Forall_cons; [cbn; lra |]). apply Forall_nil.
Qed.

(** X2. In real arithmetic the rail is made of runs along the axes joined
    by exact quarter circles: P0P1 and P4P5 are horizontal, P2P3 is
    vertical, and with a corner radius that is not negative the two ends of
    each arc lie at distance [cornerRadius] from the corner's centre, which
    sits straight below P1 beside P2, and straight above P4 beside P3. On
    doubles the differences of the coordinates are rounded. *)
Theorem corners_are_quarter_circles :
  0 <= cornerRadius cfg ->
  exists (g : RailGeometry R) (P0 P1 P2 P3 P4 P5 : Point R),
    calculateRailPath toString cfg {| width := w; height := h |} = Some g /\
    points g = [P0; P1; P2; P3; P4; P5] /\
    y P0 = y P1 /\ x P2 = x P3 /\ y P4 = y P5 /\
    euclidean_distance {| x := x P1; y := y P2 |} P1 = cornerRadius cfg /\
    euclidean_distance {| x := x P1; y := y P2 |} P2 = cornerRadius cfg /\
    euclidean_distance {| x := x P4; y := y P3 |} P3 = cornerRadius cfg /\
    euclidean_distance {| x := x P4; y := y P3 |} P4 = cornerRadius cfg.
Proof.
  intros Hc. do 7 eexists.
  split; [apply calculateRailPath_guard_false, guard_measured; simpl; lra |].
  split; [reflexivity |].
  unfold euclidean_distance. cbn.
    repeat split; try reflexivity;
      match goal with
      | |- sqrt ?a = _ =>
          replace a with (cornerRadius cfg ^ 2) by ring;
          apply sqrt_pow2, Hc
      end.
Qed.

(** X3. In real arithmetic the top and the bottom run point towards the
    corner, and the vertical run points down, only in a viewport that is
    large enough: with a horizontal position above 1, P0 is not to the
    right of P1 (and P5 not to the right of P4) exactly when
    [(edgePadding + cornerRadius) * horizontalPosition
     / (horizontalPosition - 1) <= w],
    and P2 is not below P3 exactly when
    [2 * edgePadding + 4 * cornerRadius <= h]. On doubles the quotient
    [w / horizontalPosition] is rounded, and so is the first threshold. *)
Theorem rail_runs_forward :
  1 < horizontalPosition cfg ->
  exists (g : RailGeometry R) (P0 P1 P2 P3 P4 P5 : Point R),
    calculateRailPath toString cfg {| width := w; height := h |} = Some g /\
    points g = [P0; P1; P2; P3; P4; P5] /\
    (x P0 <= x P1 <->
     (edgePadding cfg + cornerRadius cfg) * horizontalPosition cfg
     / (horizontalPosition cfg - 1) <= w) /\
    (x P5 <= x P4 <-> x P0 <= x P1) /\
    (y P2 <= y P3 <-> 2 * edgePadding cfg + 4 * cornerRadius cfg <= h).
Proof.
  intros Hp. do 7 eexists.
  split; [apply calculateRailPath_guard_false, guard_measured; simpl; lra |].
  split; [reflexivity |].
  - cbn.
    set (p := horizontalPosition cfg) in *.
    set (s := edgePadding cfg + cornerRadius cfg).
    assert (Hquot : w / p * p = w) by (field; lra).
    assert (Hbound : s * p / (p - 1) * (p - 1) = s * p) by (field; lra).
    split; [| split].
    + replace (w - edgePadding cfg - cornerRadius cfg) with (w - s)
        by (unfold s; ring).
      split; intros Hle.
      * apply Rmult_le_reg_r with (p - 1); [lra |]. rewrite Hbound. nra.
      * apply Rmult_le_reg_r with p; [lra |]. rewrite Hquot.
        apply Rmult_le_compat_r with (r := p - 1) in Hle; [| lra].
        rewrite Hbound in Hle. lra.
    + split; intros Hle; exact Hle.
    + unfold s. split; intros Hle; lra.
Qed.

(** X4. The total length in closed form, for every configuration: twice the
    distance between the start and the corner's approach, the height left
    between the two corners, and the two corners. *)
Theorem totalLength_closed_form :
  exists g : RailGeometry R,
    calculateRailPath toString cfg {| width := w; height := h |} = Some g /\
    totalLength g
    = 2 * Rabs (w - edgePadding cfg - cornerRadius cfg
                - w / horizontalPosition cfg)
      + Rabs (h - 2 * edgePadding cfg - 4 * cornerRadius cfg)
      + 2 * (PI * cornerRadius cfg / 2 + 2).
Proof.
  eexists. split.
  - apply calculateRailPath_guard_false, guard_measured; simpl; lra.
  - cbn.
    rewrite sqrt_level by ring. rewrite sqrt_upright by ring.
    rewrite sqrt_level by ring.
    replace (w / horizontalPosition cfg
             - (w - edgePadding cfg - cornerRadius cfg))
      with (- (w - edgePadding cfg - cornerRadius cfg
               - w / horizontalPosition cfg)) by ring.
    rewrite Rabs_Ropp.
    replace (h - edgePadding cfg - cornerRadius cfg - cornerRadius cfg
             - (edgePadding cfg + cornerRadius cfg + cornerRadius cfg))
      with (h - 2 * edgePadding cfg - 4 * cornerRadius cfg) by ring.
    ring.
Qed.

End RailShape.

Section StartOfTheRail.

Local Open Scope R_scope.

Variable toString : R -> string.


End StartOfTheRail.

(* ================================================================== *)
(** ** More about the geometry, for every number type *)

Section EveryGeometry.

Context {num : Type} `{JSNumber num}.
Variable toString : num -> string.

Local Open Scope js_scope.

(** X6. Whatever the configuration and the viewport, of any number type,
    [calculateRailPath] throws nothing, and the geometry it returns is
    either the empty one or has six points; it has one length per pair of
    neighbouring points, and its [totalLength] is the sum of
    [segmentLengths] added from left to right, starting from 0. *)
Theorem calculateRailPath_keeps_total
    (cfg : Config num) (d : Dimensions num) :
  exists g : RailGeometry num,
    calculateRailPath toString cfg d = Some g /\
    (List.length (points g) = 0%nat \/ List.length (points g) = 6%nat) /\
    List.length (segmentLengths g) = (List.length (points g) - 1)%nat /\
    totalLength g = fold_left num_add (segmentLengths g) (of_Z 0).
Proof.
  destruct ((width d === of_Z 0) || (height d === of_Z 0)) eqn:Hguard.
  - eexists. split; [apply calculateRailPath_guard_true, Hguard |].
    split; [left; reflexivity |]. split; reflexivity.
  - eexists. split; [apply calculateRailPath_guard_false, Hguard |].
    split; [right; reflexivity |]. split; reflexivity.
Qed.

(** X7. The path description is empty exactly when the viewport was not
    measured, that is when [width === 0 || height === 0]; and then, and only
    then, the geometry has no points. A path description that is not empty
    starts with a move command. *)
Theorem railPath_empty_iff_unmeasured
    (cfg : Config num) (d : Dimensions num) :
  exists g : RailGeometry num,
    calculateRailPath toString cfg d = Some g /\
    falsy (railPath g) = (width d === of_Z 0) || (height d === of_Z 0) /\
    (falsy (railPath g) = true <-> points g = []) /\
    (falsy (railPath g) = false ->
     exists rest : string, railPath g = ("M " ++ rest)%string).
Proof.
  destruct ((width d === of_Z 0) || (height d === of_Z 0)) eqn:Hguard.
  - eexists. split; [apply calculateRailPath_guard_true, Hguard |].
    cbn. split; [reflexivity |]. split; [tauto | discriminate].
  - eexists. split; [apply calculateRailPath_guard_false, Hguard |].
    cbn. split; [reflexivity |]. split.
    + split; discriminate.
    + intros _. eexists. reflexivity.
Qed.

End EveryGeometry.

(* ================================================================== *)
(** ** More about the scroll progress *)

Section ProgressShape.

Local Open Scope R_scope.

Lemma clamp_bounds (p : R) : 0 <= Rmax 0 (Rmin 1 p) <= 1.
Proof.
  split; [apply Rmax_l |]. apply Rmax_lub; [lra | apply Rmin_l].
Qed.

Lemma clamp_monotone (p q : R) :
  p <= q -> Rmax 0 (Rmin 1 p) <= Rmax 0 (Rmin 1 q).
Proof.
  intros Hpq. apply Rle_max_compat_l, Rle_min_compat_l, Hpq.
Qed.

(** X8. With content taller than the viewport, the target that
    [handleScroll] hands to the spring is 0 up to the top, the offset
    divided by the scrollable distance in between, and 1 from the bottom
    on. *)
Theorem handleScroll_piecewise (cfg : Config R) (e : NativeScrollEvent R) :
  let maxScrollDistance :=
    height (contentSize e) - height (layoutMeasurement e) in
  let offset := y (contentOffset e) in
  0 < maxScrollDistance ->
  (offset <= 0 -> toValue (handleScroll cfg e) = 0) /\
  (0 <= offset <= maxScrollDistance ->
   toValue (handleScroll cfg e) = offset / maxScrollDistance) /\
  (maxScrollDistance <= offset -> toValue (handleScroll cfg e) = 1).
Proof.
  intros m offset Hm. unfold handleScroll, withSpring. cbn.
  fold m. fold offset.
  apply Rgt_bool_true in Hm as Hgt. rewrite Hgt.
  assert (Hinv : 0 < / m) by (apply Rinv_0_lt_compat, Hm).
  assert (Hquot : offset / m * m = offset) by (field; lra).
  split; [| split].
  - intros Hy. assert (offset / m <= 0) by nra.
    rewrite Rmin_right by lra. apply Rmax_left. lra.
  - intros [H0 H1]. assert (0 <= offset / m <= 1) by (split; nra).
    rewrite Rmin_right by lra. apply Rmax_right. lra.
  - intros Hy. assert (1 <= offset / m) by nra.
    rewrite Rmin_left by lra. apply Rmax_right. lra.
Qed.

(** X9. Scrolling further never moves the target back: of two scroll events
    with the same content height and the same viewport height, the one with
    the larger offset has the larger or the same target. *)
Theorem handleScroll_monotone (cfg : Config R) (e1 e2 : NativeScrollEvent R) :
  height (contentSize e1) = height (contentSize e2) ->
  height (layoutMeasurement e1) = height (layoutMeasurement e2) ->
  y (contentOffset e1) <= y (contentOffset e2) ->
  toValue (handleScroll cfg e1) <= toValue (handleScroll cfg e2).
Proof.
  intros Hcontent Hlayout Hoffset. unfold handleScroll, withSpring. cbn.
  rewrite Hcontent, Hlayout.
  set (m := height (contentSize e2) - height (layoutMeasurement e2)).
  destruct (Rgt_bool m 0) eqn:Hm.
  - apply Rgt_bool_true in Hm. apply clamp_monotone.
    unfold Rdiv. apply Rmult_le_compat_r; [| exact Hoffset].
    apply Rlt_le, Rinv_0_lt_compat, Hm.
  - apply Rle_refl.
Qed.

End ProgressShape.

(* ================================================================== *)
(** ** More about the indicator *)

Section IndicatorShape.

Local Open Scope R_scope.

Variable toString : R -> string.
Variable cfg : Config R.

(** X10. The opacity of the indicator is 0 or 1, and it is 1 exactly when
    the rail is shown, the content is taller than the viewport, the path
    description is not empty and the total length is not 0. *)
Theorem indicator_opacity_iff
    (showRail : bool) (contentHeight scrollViewHeight : R)
    (g : RailGeometry R) (progress : R) :
  let props :=
    animatedMaskProps toString cfg showRail contentHeight scrollViewHeight g
      progress in
  (opacity props = 0 \/ opacity props = 1) /\
  (opacity props = 1 <->
   showRail = true /\ scrollViewHeight < contentHeight
   /\ railPath g <> ""%string /\ totalLength g <> 0).
Proof.
  intros props. subst props.
  destruct (negb showRail || (Rle_bool contentHeight scrollViewHeight)
            || falsy (railPath g)) eqn:Hfirst.
  - rewrite animatedMaskProps_first_return by exact Hfirst. cbn.
    split; [left; reflexivity |]. split; [intros; lra |].
    intros (Hshow & Hscroll & Hpath & _). exfalso.
    apply Rle_bool_false in Hscroll. apply falsy_false in Hpath.
    rewrite Hshow, Hscroll, Hpath in Hfirst. discriminate.
  - apply orb_false_elim in Hfirst as Hparts.
    destruct Hparts as [Hparts Hpath].
    apply orb_false_elim in Hparts as [Hshow Hscroll].
    apply negb_false_iff in Hshow. apply Rle_bool_false in Hscroll.
    apply falsy_false in Hpath.
    destruct (Req_bool (totalLength g) 0) eqn:Hlength.
    + rewrite animatedMaskProps_second_return by exact Hlength. cbn.
      split; [left; reflexivity |]. split; [intros; lra |].
      intros (_ & _ & _ & Hne). apply Req_bool_true in Hlength. tauto.
    + rewrite animatedMaskProps_last_return by assumption. cbn.
      split; [right; reflexivity |]. split; [| reflexivity].
      intros _. apply Req_bool_false in Hlength. tauto.
Qed.

(** X11. Once the spring has settled on the target of a scroll event, the
    middle of the visible dash lies on the rail: for a visible indicator
    with a positive total length, the dash offset is at most
    [visibleLength / 2] and at least [visibleLength / 2 - totalLength]. *)
Theorem settled_indicator_on_the_rail
    (contentHeight scrollViewHeight : R) (g : RailGeometry R)
    (e : NativeScrollEvent R) :
  scrollViewHeight < contentHeight ->
  railPath g <> ""%string ->
  0 < totalLength g ->
  let props :=
    animatedMaskProps toString cfg true contentHeight scrollViewHeight g
      (toValue (handleScroll cfg e)) in
  visibleLength cfg / 2 - totalLength g <= strokeDashoffset props
  <= visibleLength cfg / 2.
Proof.
  intros Hscroll Hpath Hlength props. subst props.
  rewrite animatedMaskProps_last_return.
  - cbn.
    pose proof (clamp_bounds
                  (if Rgt_bool (height (contentSize e)
                                - height (layoutMeasurement e)) 0
                   then y (contentOffset e)
                        / (height (contentSize e)
                           - height (layoutMeasurement e))
                   else 0)) as [Hlow Hhigh].
    split; nra.
  - cbn. apply Rle_bool_false in Hscroll. rewrite Hscroll.
    apply falsy_false in Hpath. rewrite Hpath. reflexivity.
  - apply Req_bool_false. cbn. lra.
Qed.

End IndicatorShape.

(* ================================================================== *)
(** ** The component as a whole *)

Section ComponentTrace.

Context {num : Type} `{JSNumber num}.
Variable toString : num -> string.
Variable ReactNode : Type.

(** An event is a layout of the container or leaves the container
    dimensions alone. *)
Lemma handle_keeps_containerDimensions
    (st : Component.State num) (event : Component.Event num) :
  (forall layout, event <> Component.ContainerLayout layout) ->
  Component.containerDimensions (Component.handle st event)
  = Component.containerDimensions st.
Proof.
  intros Hother. destruct event as [layout | e | cw ch | layout];
    [now contradiction (Hother layout) | reflexivity ..].
Qed.

Lemma run_keeps_containerDimensions (events : list (Component.Event num)) :
  forall st : Component.State num,
    Forall (fun event => forall layout,
                event <> Component.ContainerLayout layout) events ->
    Component.containerDimensions (Component.run events st)
    = Component.containerDimensions st.
Proof.
  unfold Component.run.
  induction events as [| event events IH]; intros st Hother; simpl.
  - reflexivity.
  - inversion Hother as [| ? ? Hevent Hevents]; subst.
    rewrite IH by exact Hevents.
    apply handle_keeps_containerDimensions, Hevent.
Qed.

(** X12. Scrolling, a change of the content size and a layout of the scroll
    view never move the rail: after any sequence of events without a layout
    of the container, a render has the overlay, the drawing and the path
    description it had before, whatever the progress. *)
Theorem other_events_keep_the_rail
    (events : list (Component.Event num)) (st : Component.State num)
    (props : Component.CurvedScrollBarProps num ReactNode)
    (progress progress' : num) :
  Forall (fun event => forall layout,
              event <> Component.ContainerLayout layout) events ->
  let before := Component.render toString props st progress in
  let after :=
    Component.render toString props (Component.run events st) progress' in
  option_map (@Component.overlaySize num ReactNode) after
  = option_map (@Component.overlaySize num ReactNode) before /\
  option_map (@Component.svgSize num ReactNode) after
  = option_map (@Component.svgSize num ReactNode) before /\
  option_map (fun r => option_map (@Component.d num) (Component.path r)) after
  = option_map (fun r => option_map (@Component.d num) (Component.path r))
      before.
Proof.
  intros Hother before after. subst before after.
  unfold Component.render.
  rewrite (run_keeps_containerDimensions st Hother).
  destruct (calculateRailPath toString SCROLLBAR_CONFIG
              (Component.containerDimensions st)) as [g |]; simpl;
    [| repeat split; reflexivity].
  repeat split; try reflexivity.
  destruct (Component.or_default (Component.showRail props) true
            && negb (falsy (railPath g))); reflexivity.
Qed.

End ComponentTrace.

Section ComponentRender.

Local Open Scope R_scope.

Variable toString : R -> string.
Variable ReactNode : Type.

(** With the component's own configuration, the geometry of a viewport
    whose width and height are not 0 has a path description that is not
    empty and a positive total length. *)
Lemma default_geometry_drawable (d : Dimensions R) :
  width d <> 0 -> height d <> 0 ->
  exists g : RailGeometry R,
    calculateRailPath toString SCROLLBAR_CONFIG d = Some g /\
    falsy (railPath g) = false /\ 0 < totalLength g.
Proof.
  intros Hw Hh. eexists.
  split; [apply calculateRailPath_guard_false, guard_measured; assumption |].
  split; [reflexivity |]. cbn.
  repeat match goal with
         | |- context [sqrt ?a] =>
             lazymatch goal with
             | _ : 0 <= sqrt a |- _ => fail
             | _ => pose proof (sqrt_pos a)
             end
         end.
  pose proof PI_RGT_0. lra.
Qed.

Lemma default_geometry_unmeasured (d : Dimensions R) :
  width d = 0 \/ height d = 0 ->
  calculateRailPath toString SCROLLBAR_CONFIG d = Some empty_geometry.
Proof.
  intros Hzero.
  exact (calculateRailPath_guard_true toString SCROLLBAR_CONFIG d
           (guard_unmeasured d Hzero)).
Qed.

(** X13. A render throws nothing, and it draws the path exactly when the
    rail is shown and the container has been laid out with a width and a
    height that are not 0. The path it draws has a description that is not
    empty, the one [calculateRailPath] gives for the container. *)
Theorem render_draws_path_iff_measured
    (props : Component.CurvedScrollBarProps R ReactNode)
    (st : Component.State R) (progress : R) :
  exists r : Component.Rendered R ReactNode,
    Component.render toString props st progress = Some r /\
    (Component.path r = None <->
     Component.or_default (Component.showRail props) true = false
     \/ width (Component.containerDimensions st) = 0
     \/ height (Component.containerDimensions st) = 0) /\
    (forall element : Component.AnimatedPath R,
        Component.path r = Some element ->
        Component.d element <> ""%string /\
        option_map (@railPath R)
          (calculateRailPath toString SCROLLBAR_CONFIG
             (Component.containerDimensions st))
        = Some (Component.d element)).
Proof.
  unfold Component.render.
  set (d := Component.containerDimensions st).
  destruct (Req_dec_T (width d) 0) as [Hw | Hw];
    [| destruct (Req_dec_T (height d) 0) as [Hh | Hh]].
  - rewrite default_geometry_unmeasured by (left; exact Hw).
    eexists. split; [reflexivity |]. cbn. rewrite andb_false_r.
    split; [tauto | discriminate].
  - rewrite default_geometry_unmeasured by (right; exact Hh).
    eexists. split; [reflexivity |]. cbn. rewrite andb_false_r.
    split; [tauto | discriminate].
  - destruct (default_geometry_drawable d Hw Hh) as (g & Hg & Hpath & _).
    rewrite Hg. eexists. split; [reflexivity |]. cbn. rewrite Hpath.
    destruct (Component.or_default (Component.showRail props) true);
      cbn; split.
    + split; [discriminate |]. intros [Hshow | [Hzero | Hzero]];
        [discriminate | now contradiction Hw | now contradiction Hh].
    + intros element Helement. injection Helement as <-. cbn.
      split; [now apply falsy_false | reflexivity].
    + split; [intros _; left; reflexivity | reflexivity].
    + discriminate.
Qed.

(** X14. In a render the drawn path and the overlay agree: the overlay has
    opacity 1 when the content is taller than the scroll view and
    [inactiveOpacity], 0.3, otherwise; and a drawn path has opacity 1 in the
    first case and opacity 0 in the second. So for a drawn path the test
    [totalLength === 0] never decides. *)
Theorem render_opacities_agree
    (props : Component.CurvedScrollBarProps R ReactNode)
    (st : Component.State R) (progress : R) :
  exists r : Component.Rendered R ReactNode,
    Component.render toString props st progress = Some r /\
    (Component.overlayOpacity r
     = if Rlt_dec (Component.scrollViewHeight st) (Component.contentHeight st)
       then 1 else 3 / 10) /\
    (forall element : Component.AnimatedPath R,
        Component.path r = Some element ->
        opacity (Component.animatedProps element)
        = if Rlt_dec (Component.scrollViewHeight st)
               (Component.contentHeight st)
          then 1 else 0).
Proof.
  unfold Component.render.
  set (d := Component.containerDimensions st).
  assert (Hstyle :
    animatedContainerStyle SCROLLBAR_CONFIG (Component.contentHeight st)
      (Component.scrollViewHeight st)
    = if Rlt_dec (Component.scrollViewHeight st) (Component.contentHeight st)
      then 1 else 3 / 10).
  { unfold animatedContainerStyle. cbn. unfold Rgt_bool.
    destruct (Rlt_dec (Component.scrollViewHeight st)
                (Component.contentHeight st)); reflexivity. }
  destruct (Req_dec_T (width d) 0) as [Hw | Hw];
    [| destruct (Req_dec_T (height d) 0) as [Hh | Hh]].
  - rewrite default_geometry_unmeasured by (left; exact Hw).
    eexists. split; [reflexivity |]. cbn -[animatedContainerStyle].
    rewrite andb_false_r. split; [exact Hstyle | discriminate].
  - rewrite default_geometry_unmeasured by (right; exact Hh).
    eexists. split; [reflexivity |]. cbn -[animatedContainerStyle].
    rewrite andb_false_r. split; [exact Hstyle | discriminate].
  - destruct (default_geometry_drawable d Hw Hh) as (g & Hg & Hpath & Hlength).
    rewrite Hg. eexists. split; [reflexivity |].
    cbn -[animatedContainerStyle animatedMaskProps]. rewrite Hpath.
    split; [exact Hstyle |].
    destruct (Component.or_default (Component.showRail props) true);
      cbn -[animatedMaskProps]; [| discriminate].
    intros element Helement. injection Helement as <-.
    cbn -[animatedMaskProps].
    destruct (Rlt_dec (Component.scrollViewHeight st)
                (Component.contentHeight st)) as [Hscroll | Hfits].
    + rewrite animatedMaskProps_last_return; [reflexivity | |].
      * cbn. apply Rle_bool_false in Hscroll. rewrite Hscroll, Hpath.
        reflexivity.
      * apply Req_bool_false. cbn. lra.
    + rewrite animatedMaskProps_first_return; [reflexivity |].
      cbn. assert (Hle : Rle_bool (Component.contentHeight st)
                           (Component.scrollViewHeight st) = true)
        by (apply Rle_bool_true; lra).
      rewrite Hle. reflexivity.
Qed.

(** X15. Until the container is laid out nothing is drawn: from the initial
    state, after any sequence of events without a layout of the container,
    a render has no path and an overlay of 0 by 0. *)
Theorem nothing_drawn_before_layout
    (events : list (Component.Event R))
    (props : Component.CurvedScrollBarProps R ReactNode) (progress : R) :
  Forall (fun event => forall layout,
              event <> Component.ContainerLayout layout) events ->
  exists r : Component.Rendered R ReactNode,
    Component.render toString props
      (Component.run events Component.initialState) progress = Some r /\
    Component.path r = None /\
    Component.overlaySize r = {| width := 0; height := 0 |}.
Proof.
  intros Hother. unfold Component.render.
  rewrite (run_keeps_containerDimensions Component.initialState Hother).
  rewrite default_geometry_unmeasured by (left; reflexivity).
  eexists. split; [reflexivity |]. cbn. rewrite andb_false_r.
  split; reflexivity.
Qed.

End ComponentRender.

(* ================================================================== *)
(** ** The application *)

Section Application.

Local Open Scope string_scope.

Lemma presses_of_snoc (button last : App.Press) (presses : list App.Press) :
  App.presses_of button (presses ++ [last])
  = (App.presses_of button presses
     + if App.same_button button last then 1 else 0)%nat.
Proof.
  unfold App.presses_of. rewrite filter_app, length_app. simpl.
  destruct (App.same_button button last); reflexivity.
Qed.

Lemma even_succ_negb (n : nat) : Nat.even (n + 1) = negb (Nat.even n).
Proof.
  rewrite Nat.add_1_r, Nat.even_succ, <- Nat.negb_even. reflexivity.
Qed.

Lemma presses_state (presses : list App.Press) :
  let st := fold_left App.onPress presses App.initialState in
  App.scrollBarColor st
  = (if Nat.even (App.presses_of App.Color presses)
     then "#f6a53b" else "#dd2f2f") /\
  App.showRail st = Nat.even (App.presses_of App.Rail presses).
Proof.
  induction presses as [| last presses IH] using rev_ind.
  - cbn. split; reflexivity.
  - cbn zeta in IH |- *. rewrite fold_left_app. simpl.
    rewrite !presses_of_snoc. destruct IH as [Hcolor Hrail].
    destruct last; cbn; rewrite Hcolor, Hrail;
      rewrite ?Nat.add_0_r, ?even_succ_negb;
      destruct (Nat.even (App.presses_of App.Color presses));
      destruct (Nat.even (App.presses_of App.Rail presses));
      split; reflexivity.
Qed.

(** X16. The two buttons count modulo 2: after any sequence of presses the
    colour is the initial orange when the colour button was pressed an even
    number of times and the red otherwise, the caption under it says which,
    and the rail is shown exactly when the rail button was pressed an even
    number of times. *)
Theorem presses_count_modulo_two (presses : list App.Press) :
  let st := fold_left App.onPress presses App.initialState in
  App.scrollBarColor st
  = (if Nat.even (App.presses_of App.Color presses)
     then "#f6a53b" else "#dd2f2f") /\
  App.colorCaption st
  = (if Nat.even (App.presses_of App.Color presses)
     then "Orange" else "Red") /\
  App.showRail st = Nat.even (App.presses_of App.Rail presses) /\
  App.railCaption st
  = (if Nat.even (App.presses_of App.Rail presses)
     then "Enabled" else "Disabled").
Proof.
  intros st. destruct (presses_state presses) as [Hcolor Hrail].
  fold st in Hcolor, Hrail.
  unfold App.colorCaption, App.railCaption. rewrite Hcolor, Hrail.
  destruct (Nat.even (App.presses_of App.Color presses));
    destruct (Nat.even (App.presses_of App.Rail presses));
    repeat split; reflexivity.
Qed.

End Application.

Section ApplicationRender.

Local Open Scope R_scope.

Variable toString : R -> string.
Variable ReactNode : Type.
Variable content : ReactNode.

(** X17. What the application makes the component draw: after any sequence
    of presses, and in any state of the component, the background is the
    empty string the application passes, not the default; the path is drawn
    exactly when the rail button was pressed an even number of times and
    the container is measured; and a drawn path has the colour of the
    moment and the width 5. *)
Theorem application_render
    (presses : list App.Press) (st : Component.State R) (progress : R) :
  let app := fold_left App.onPress presses App.initialState in
  exists r : Component.Rendered R ReactNode,
    Component.render toString (App.props content app) st progress = Some r /\
    Component.background r = ""%string /\
    Component.scrollContent r = content /\
    (Component.path r <> None <->
     Nat.even (App.presses_of App.Rail presses) = true
     /\ width (Component.containerDimensions st) <> 0
     /\ height (Component.containerDimensions st) <> 0) /\
    (forall element : Component.AnimatedPath R,
        Component.path r = Some element ->
        Component.stroke element
        = (if Nat.even (App.presses_of App.Color presses)
           then "#f6a53b" else "#dd2f2f")%string
        /\ Component.strokeWidth element = 5).
Proof.
  intros app.
  destruct (presses_state presses) as [Hcolor Hrail].
  fold app in Hcolor, Hrail.
  unfold Component.render.
  set (d := Component.containerDimensions st).
  destruct (Req_dec_T (width d) 0) as [Hw | Hw];
    [| destruct (Req_dec_T (height d) 0) as [Hh | Hh]].
  - rewrite default_geometry_unmeasured by (left; exact Hw).
    eexists. split; [reflexivity |]. cbn. rewrite andb_false_r.
    repeat split; try discriminate; try tauto.
  - rewrite default_geometry_unmeasured by (right; exact Hh).
    eexists. split; [reflexivity |]. cbn. rewrite andb_false_r.
    repeat split; try discriminate; try tauto.
  - destruct (default_geometry_drawable toString d Hw Hh)
      as (g & Hg & Hpath & _).
    rewrite Hg. eexists. split; [reflexivity |]. cbn. rewrite Hpath, Hrail.
    split; [reflexivity |]. split; [reflexivity |].
    destruct (Nat.even (App.presses_of App.Rail presses)); cbn; split.
    + split; [intros _; repeat split; assumption | discriminate].
    + intros element Helement. injection Helement as <-. cbn.
      split; [exact Hcolor | reflexivity].
    + split; [intros Hnone; now contradiction Hnone |].
      intros [Heven _]. discriminate.
    + discriminate.
Qed.

End ApplicationRender.

(* ================================================================== *)
(** ** Worked instances *)

Lemma rail_inside_viewport_witness :
  (0 < 300 /\ 0 < 600 /\ 0 <= 10 /\ 0 <= 12 /\ 1 <= 11 / 10
   /\ 10 + 12 <= 300 /\ 10 + 2 * 12 <= 600)%R /\
  exists g : RailGeometry R,
    calculateRailPath (fun _ => "n"%string) SCROLLBAR_CONFIG
      {| width := 300%R; height := 600%R |} = Some g /\
    Forall (fun p : Point R => (0 <= x p <= 300 /\ 0 <= y p <= 600)%R)
      (points g).
Proof.
  assert (Hw : (0 < 300)%R) by lra.
  assert (Hh : (0 < 600)%R) by lra.
  assert (He : (0 <= 10)%R) by lra.
  assert (Hc : (0 <= 12)%R) by lra.
  assert (Hp : (1 <= 11 / 10)%R) by lra.
  assert (Hwide : (10 + 12 <= 300)%R) by lra.
  assert (Hhigh : (10 + 2 * 12 <= 600)%R) by lra.
  split; [repeat split; assumption |].
  exact (@rail_inside_viewport (fun _ => "n"%string)
           (@SCROLLBAR_CONFIG R R_JSNumber) 300%R 600%R
           Hw Hh He Hc Hp Hwide Hhigh).
Defined.

Lemma corners_are_quarter_circles_witness :
  (0 < 300 /\ 0 < 600 /\ 0 <= 12)%R /\
  exists (g : RailGeometry R) (P1 P2 : Point R),
    calculateRailPath (fun _ => "n"%string) SCROLLBAR_CONFIG
      {| width := 300%R; height := 600%R |} = Some g /\
    nth_error (points g) 1 = Some P1 /\
    nth_error (points g) 2 = Some P2 /\
    euclidean_distance {| x := x P1; y := y P2 |} P1 = 12%R /\
    euclidean_distance {| x := x P1; y := y P2 |} P2 = 12%R.
Proof.
  assert (Hw : (0 < 300)%R) by lra.
  assert (Hh : (0 < 600)%R) by lra.
  assert (Hc : (0 <= 12)%R) by lra.
  split; [repeat split; assumption |].
  destruct (@corners_are_quarter_circles (fun _ => "n"%string)
              (@SCROLLBAR_CONFIG R R_JSNumber) 300%R 600%R Hw Hh Hc)
    as (g & P0 & P1 & P2 & P3 & P4 & P5 & Hg & Hpoints & _ & _ & _
        & Hfirst & Hsecond & _).
  exists g, P1, P2. rewrite Hpoints. repeat split; assumption.
Defined.

Lemma rail_runs_forward_witness :
  (0 < 300 /\ 0 < 600 /\ 1 < 11 / 10)%R /\
  exists (g : RailGeometry R) (P0 P1 : Point R),
    calculateRailPath (fun _ => "n"%string) SCROLLBAR_CONFIG
      {| width := 300%R; height := 600%R |} = Some g /\
    nth_error (points g) 0 = Some P0 /\
    nth_error (points g) 1 = Some P1 /\
    (x P0 <= x P1 <-> (10 + 12) * (11 / 10) / (11 / 10 - 1) <= 300)%R.
Proof.
  assert (Hw : (0 < 300)%R) by lra.
  assert (Hh : (0 < 600)%R) by lra.
  assert (Hp : (1 < 11 / 10)%R) by lra.
  split; [repeat split; assumption |].
  destruct (@rail_runs_forward (fun _ => "n"%string)
              (@SCROLLBAR_CONFIG R R_JSNumber) 300%R 600%R Hw Hh Hp)
    as (g & P0 & P1 & P2 & P3 & P4 & P5 & Hg & Hpoints & Htop & _).
  exists g, P0, P1. rewrite Hpoints. repeat split; try reflexivity;
    try exact Hg; apply Htop.
Defined.

Lemma totalLength_closed_form_witness :
  (0 < 300 /\ 0 < 600)%R /\
  exists g : RailGeometry R,
    calculateRailPath (fun _ => "n"%string) SCROLLBAR_CONFIG
      {| width := 300%R; height := 600%R |} = Some g /\
    totalLength g
    = (2 * Rabs (300 - 10 - 12 - 300 / (11 / 10))
       + Rabs (600 - 2 * 10 - 4 * 12) + 2 * (PI * 12 / 2 + 2))%R.
Proof.
  assert (Hw : (0 < 300)%R) by lra.
  assert (Hh : (0 < 600)%R) by lra.
  split; [split; assumption |].
  exact (@totalLength_closed_form (fun _ => "n"%string)
           (@SCROLLBAR_CONFIG R R_JSNumber) 300%R 600%R Hw Hh).
Defined.


Lemma handleScroll_piecewise_witness :
  let e : NativeScrollEvent R :=
    {| contentOffset := {| x := 0; y := 600 |};
       contentSize := {| width := 300; height := 2000 |};
       layoutMeasurement := {| width := 300; height := 800 |} |}%R in
  (0 < 2000 - 800 /\ 0 <= 600 <= 2000 - 800)%R /\
  toValue (handleScroll SCROLLBAR_CONFIG e) = (600 / (2000 - 800))%R.
Proof.
  intros e.
  assert (Hm : (0 < 2000 - 800)%R) by lra.
  assert (Hy : (0 <= 600 <= 2000 - 800)%R) by lra.
  split; [split; assumption |].
  exact (proj1 (proj2 (handleScroll_piecewise SCROLLBAR_CONFIG e Hm)) Hy).
Defined.

Lemma handleScroll_monotone_witness :
  let e1 : NativeScrollEvent R :=
    {| contentOffset := {| x := 0; y := 600 |};
       contentSize := {| width := 300; height := 2000 |};
       layoutMeasurement := {| width := 300; height := 800 |} |}%R in
  let e2 : NativeScrollEvent R :=
    {| contentOffset := {| x := 0; y := 900 |};
       contentSize := {| width := 300; height := 2000 |};
       layoutMeasurement := {| width := 300; height := 800 |} |}%R in
  (2000 = 2000 /\ 800 = 800 /\ 600 <= 900)%R /\
  (toValue (handleScroll SCROLLBAR_CONFIG e1)
   <= toValue (handleScroll SCROLLBAR_CONFIG e2))%R.
Proof.
  intros e1 e2.
  assert (Hoffset : (600 <= 900)%R) by lra.
  split; [repeat split; assumption |].
  exact (handleScroll_monotone SCROLLBAR_CONFIG e1 e2 eq_refl eq_refl Hoffset).
Defined.

Lemma settled_indicator_on_the_rail_witness :
  let e : NativeScrollEvent R :=
    {| contentOffset := {| x := 0; y := 600 |};
       contentSize := {| width := 300; height := 2000 |};
       layoutMeasurement := {| width := 300; height := 800 |} |}%R in
  exists g : RailGeometry R,
    calculateRailPath (fun _ => "n"%string) SCROLLBAR_CONFIG
      {| width := 300%R; height := 600%R |} = Some g /\
    (800 < 2000)%R /\ railPath g <> ""%string /\ (0 < totalLength g)%R /\
    (70 / 2 - totalLength g
     <= strokeDashoffset
          (animatedMaskProps (fun _ => "n"%string) SCROLLBAR_CONFIG true
             2000 800 g (toValue (handleScroll SCROLLBAR_CONFIG e)))
     <= 70 / 2)%R.
Proof.
  intros e.
  assert (Hw : (0 < 300)%R) by lra.
  assert (Hh : (0 < 600)%R) by lra.
  assert (Hc : (0 <= cornerRadius (@SCROLLBAR_CONFIG R R_JSNumber))%R)
    by (simpl; lra).
  assert (Hscroll : (800 < 2000)%R) by lra.
  destruct (calculateRailPath_returns (fun _ => "n"%string)
              (@SCROLLBAR_CONFIG R R_JSNumber)
              {| width := 300%R; height := 600%R |}) as [g Hg].
  destruct (@measured_geometry_drawable (fun _ => "n"%string)
              (@SCROLLBAR_CONFIG R R_JSNumber) 300%R 600%R Hw Hh g Hc Hg)
    as [Hpath Hlength].
  exists g. repeat (split; [assumption |]).
  exact (@settled_indicator_on_the_rail (fun _ => "n"%string)
           (@SCROLLBAR_CONFIG R R_JSNumber) 2000%R 800%R g e
           Hscroll Hpath Hlength).
Defined.

Lemma other_events_keep_the_rail_witness :
  let layout : Dimensions float := {| width := 300; height := 600 |}%float in
  let scroll : NativeScrollEvent float :=
    {| contentOffset := {| x := 0; y := 600 |};
       contentSize := {| width := 300; height := 2000 |};
       layoutMeasurement := {| width := 300; height := 800 |} |}%float in
  let events : list (Component.Event float) :=
    [ Component.ContentSizeChange 300%float 2000%float;
      Component.ScrollViewLayout {| width := 300; height := 800 |}%float;
      Component.Scroll scroll ] in
  let props : Component.CurvedScrollBarProps float unit :=
    {| Component.children := tt; Component.backgroundColor := None;
       Component.scrollBarColor := None; Component.scrollBarWidth := None;
       Component.showRail := None |} in
  let st := Component.handleContainerLayout layout Component.initialState in
  Forall (fun event => forall l, event <> Component.ContainerLayout l)
    events /\
  option_map (@Component.overlaySize float unit)
    (Component.render (fun _ => "n"%string) props (Component.run events st)
       0.5%float)
  = Some {| width := 300; height := 600 |}%float.
Proof.
  intros layout scroll events props st.
  assert (Hother : Forall (fun event => forall l,
                              event <> Component.ContainerLayout l) events)
    by (repeat constructor; discriminate).
  split; [exact Hother |].
  rewrite (proj1 (@other_events_keep_the_rail float float_JSNumber
                    (fun _ => "n"%string) unit events st props 0%float
                    0.5%float Hother)).
  reflexivity.
Defined.

Lemma nothing_drawn_before_layout_witness :
  let scroll : NativeScrollEvent R :=
    {| contentOffset := {| x := 0; y := 600 |};
       contentSize := {| width := 300; height := 2000 |};
       layoutMeasurement := {| width := 300; height := 800 |} |}%R in
  let events : list (Component.Event R) :=
    [ Component.ContentSizeChange 300%R 2000%R; Component.Scroll scroll ] in
  let props : Component.CurvedScrollBarProps R unit :=
    {| Component.children := tt; Component.backgroundColor := None;
       Component.scrollBarColor := None; Component.scrollBarWidth := None;
       Component.showRail := None |} in
  Forall (fun event => forall l, event <> Component.ContainerLayout l)
    events /\
  exists r : Component.Rendered R unit,
    Component.render (fun _ => "n"%string) props
      (Component.run events Component.initialState) (1 / 2)%R = Some r /\
    Component.path r = None.
Proof.
  intros scroll events props.
  assert (Hother : Forall (fun event => forall l,
                              event <> Component.ContainerLayout l) events)
    by (repeat constructor; discriminate).
  split; [exact Hother |].
  destruct (@nothing_drawn_before_layout (fun _ => "n"%string) unit events
              props (1 / 2)%R Hother) as (r & Hr & Hpath & _).
  exists r. split; assumption.
Defined.

Lemma handleScroll_doubles_clamped_witness :
  let e : NativeScrollEvent float :=
    {| contentOffset := {| x := 0; y := 1300 |};
       contentSize := {| width := 300; height := 2000 |};
       layoutMeasurement := {| width := 300; height := 800 |} |}%float in
  is_finite (y (contentOffset e)) = true /\
  (0 <=? toValue (handleScroll SCROLLBAR_CONFIG e))%float = true /\
  (toValue (handleScroll SCROLLBAR_CONFIG e) <=? 1)%float = true.
Proof.
  intros e.
  assert (Hfinite : is_finite (y (contentOffset e)) = true) by reflexivity.
  split; [exact Hfinite |].
  exact (handleScroll_doubles_clamped SCROLLBAR_CONFIG e Hfinite).
Defined.

Lemma calculateRailPath_doubles_measured_witness :
  let d : Dimensions float := {| width := 300; height := 600 |}%float in
  ((0 <? width d)%float = true /\ (0 <? height d)%float = true) /\
  exists g : RailGeometry float,
    calculateRailPath (fun _ => "n"%string) SCROLLBAR_CONFIG d = Some g /\
    List.length (points g) = 6%nat /\
    List.length (segmentLengths g) = 5%nat.
Proof.
  intros d.
  assert (Hw : (0 <? width d)%float = true) by reflexivity.
  assert (Hh : (0 <? height d)%float = true) by reflexivity.
  split; [split; assumption |].
  destruct (calculateRailPath_doubles_measured (fun _ => "n"%string)
              SCROLLBAR_CONFIG d Hw Hh) as (g & Hg & Hpoints & Hlengths & _).
  exists g. repeat split; assumption.
Defined.

(* ================================================================== *)
(** ** Sums and differences of doubles *)

Section DoubleSums.

Local Open Scope float_scope.





End DoubleSums.

Section DoubleSquares.

Local Open Scope float_scope.







End DoubleSquares.

(* ================================================================== *)
(** ** The visible indicator, on doubles and on reals *)




(* ================================================================== *)
(** ** The hidden indicator and its gap *)




(* ================================================================== *)
(** ** The closure: what it reads and what it leaves alone *)

Section ClosureCalls.

Context {num : Type} `{JSNumber num}.
Variable toString : num -> string.

(** A call of the closure returns what the function of the viewport and the
    configuration returns, and hands the captured variables back as they
    were. *)
Lemma closure_call (captured : Closure.Scope num) :
  Closure.call (Closure.calculateRailPath toString) captured
  = option_map (fun g => (g, captured))
      (calculateRailPath toString (Closure.SCROLLBAR_CONFIG captured)
         (Closure.containerDimensions captured)).
Proof.
  unfold Closure.call, Closure.calculateRailPath, calculateRailPath,
    Closure.exec_bind, Closure.read_scope.
  cbn.
  destruct ((width (Closure.containerDimensions captured) === of_Z 0)
            || (height (Closure.containerDimensions captured) === of_Z 0))%js;
    reflexivity.
Qed.

(** By contrast a call of [handleScroll] hands [scrollProgress] back with
    the spring it assigned. *)
Lemma closure_handleScroll
    (nativeEvent : NativeScrollEvent num) (captured : Closure.Scope num) :
  Closure.call (Closure.handleScroll nativeEvent) captured
  = Some (tt,
          Closure.set_scrollProgress
            (Component.Animated
               (handleScroll (Closure.SCROLLBAR_CONFIG captured) nativeEvent))
            captured).
Proof. reflexivity. Qed.

(** C9. [calculateRailPath] is deterministic and free of side effects: a
    call reads the container dimensions and three values of the
    configuration, assigns to nothing but its own locals, throws nothing
    and hands every captured variable back unchanged. So two calls whose
    viewport and configuration agree return the same points, segment
    lengths, total length and path description, whatever else the two
    scopes hold, and so do two calls one after the other. *)
Theorem calculateRailPath_closure_deterministic
    (scope1 scope2 : Closure.Scope num) :
  width (Closure.containerDimensions scope1)
  = width (Closure.containerDimensions scope2) ->
  height (Closure.containerDimensions scope1)
  = height (Closure.containerDimensions scope2) ->
  cornerRadius (Closure.SCROLLBAR_CONFIG scope1)
  = cornerRadius (Closure.SCROLLBAR_CONFIG scope2) ->
  edgePadding (Closure.SCROLLBAR_CONFIG scope1)
  = edgePadding (Closure.SCROLLBAR_CONFIG scope2) ->
  horizontalPosition (Closure.SCROLLBAR_CONFIG scope1)
  = horizontalPosition (Closure.SCROLLBAR_CONFIG scope2) ->
  exists g : RailGeometry num,
    Closure.call (Closure.calculateRailPath toString) scope1
    = Some (g, scope1) /\
    Closure.call (Closure.calculateRailPath toString) scope2
    = Some (g, scope2) /\
    Closure.call_twice (Closure.calculateRailPath toString) scope1
    = Some (g, g, scope1).
Proof.
  intros Hw Hh Hc He Hp.
  destruct (calculateRailPath_returns toString
              (Closure.SCROLLBAR_CONFIG scope1)
              (Closure.containerDimensions scope1)) as [g Hg].
  assert (Hcall1 : Closure.call (Closure.calculateRailPath toString) scope1
                   = Some (g, scope1))
    by (rewrite closure_call, Hg; reflexivity).
  exists g. split; [exact Hcall1 |]. split.
  - rewrite closure_call.
    rewrite <- (calculateRailPath_deterministic toString
                  (Closure.SCROLLBAR_CONFIG scope1)
                  (Closure.SCROLLBAR_CONFIG scope2)
                  (Closure.containerDimensions scope1)
                  (Closure.containerDimensions scope2) Hw Hh Hc He Hp).
    rewrite Hg. reflexivity.
  - unfold Closure.call_twice. rewrite Hcall1, Hcall1. reflexivity.
Qed.

End ClosureCalls.

Lemma calculateRailPath_closure_deterministic_witness :
  let scope1 : Closure.Scope float :=
    {| Closure.SCROLLBAR_CONFIG := SCROLLBAR_CONFIG;
       Closure.containerDimensions := {| width := 300; height := 600 |};
       Closure.contentHeight := 0; Closure.scrollViewHeight := 0;
       Closure.scrollProgress := Component.Settled 0;
       Closure.showRail := true |}%float in
  let scope2 : Closure.Scope float :=
    {| Closure.SCROLLBAR_CONFIG :=
         {| cornerRadius := 12; edgePadding := 10;
            horizontalPosition := dec 11 1; visibleLength := 100;
            animation := {| damping := 1; stiffness := 1 |};
            inactiveOpacity := 1 |};
       Closure.containerDimensions := {| width := 300; height := 600 |};
       Closure.contentHeight := 2000; Closure.scrollViewHeight := 800;
       Closure.scrollProgress := Component.Settled 0.5;
       Closure.showRail := false |}%float in
  exists g : RailGeometry float,
    Closure.call (Closure.calculateRailPath (fun _ => "n"%string)) scope1
    = Some (g, scope1) /\
    Closure.call (Closure.calculateRailPath (fun _ => "n"%string)) scope2
    = Some (g, scope2) /\
    List.length (points g) = 6%nat.
Proof.
  intros scope1 scope2.
  destruct (calculateRailPath_closure_deterministic (fun _ => "n"%string)
              scope1 scope2 eq_refl eq_refl eq_refl eq_refl eq_refl)
    as (g & Hcall1 & Hcall2 & _).
  exists g. split; [exact Hcall1 |]. split; [exact Hcall2 |].
  assert (Hvalue := Hcall1). vm_compute in Hvalue.
  injection Hvalue as Hg. rewrite <- Hg. reflexivity.
Defined.

(* ================================================================== *)
(** ** The mirror image, on doubles and on reals *)




(* ================================================================== *)
(** ** Where doubles leave real arithmetic *)

(** In a viewport 300 wide and 10.1 high the exit of the lower corner is
    not at distance 12 below its entry on doubles: the difference of the
    two y is rounded. *)
Example corner_radius_rounded_on_doubles :
  let h := (101 / 10)%float in
  exists (g : RailGeometry float) (P3 P4 : Point float),
    calculateRailPath (fun _ => "n"%string) SCROLLBAR_CONFIG
      {| width := 300%float; height := h |} = Some g /\
    nth_error (points g) 3 = Some P3 /\
    nth_error (points g) 4 = Some P4 /\
    x P3 = 290%float /\ x P4 = 278%float /\
    (y P4 - y P3 =? 12)%float = false /\
    (y P4 - y P3 <? 12)%float = true.
Proof.
  intros h. do 3 eexists. split; [vm_compute; reflexivity |].
  split; [reflexivity |]. split; [reflexivity |].
  repeat split; vm_compute; reflexivity.
Qed.

(** In a viewport a few units in the last place narrower than 242, the
    width at which the top run of the component's rail has length 0 in real
    arithmetic, the start of the rail is still not to the right of the
    approach to the corner on doubles. *)
Example run_threshold_rounded_on_doubles :
  let w := 0x1.e3ffffffffffcp+7%float in
  exists (g : RailGeometry float) (P0 P1 : Point float),
    calculateRailPath (fun _ => "n"%string) SCROLLBAR_CONFIG
      {| width := w; height := 600%float |} = Some g /\
    nth_error (points g) 0 = Some P0 /\
    nth_error (points g) 1 = Some P1 /\
    (w <? 242)%float = true /\
    (x P0 <=? x P1)%float = true.
Proof.
  intros w. do 3 eexists. split; [vm_compute; reflexivity |].
  split; [reflexivity |]. split; [reflexivity |].
  split; vm_compute; reflexivity.
Qed.
